(** * agent.py: the refuse-derived-fuel supervisor/worker pipeline

    A shallow embedding of [src/agent.py] and the properties of it that the
    specification states.

    The file has five layers:
    - Python values, exceptions and the expression monad [E] in which the
      module's right-hand sides and the tool bodies are written;
    - string literals, plain and f-strings, with Python's field substitution;
    - the module itself as the sequence of its top-level statements, executed
      over the module namespace;
    - the declarations of the module: three tools, six agents, one
      supervisor;
    - the Worker and the Coordinator, which the module does not contain and
      which are modelled from the specification over the declared agents,
      with the reasoning engine as a parameter. *)

From Stdlib Require Import String Ascii List Bool ZArith QArith Qabs Lia Permutation.
Import ListNotations.
Close Scope Q_scope.
Open Scope string_scope.

(** ** Characters that a literal of this file cannot hold *)

Definition nl : string := String (ascii_of_nat 10) EmptyString.
Definition dq : string := String (ascii_of_nat 34) EmptyString.

(** The value of a triple-quoted literal whose source lines are [ls]. *)
Definition py_lines (ls : list string) : string := String.concat nl ls.

(** [contains needle s]: Python's [needle in s]. *)
Fixpoint contains (needle s : string) : bool :=
  prefix needle s ||
  match s with
  | EmptyString => false
  | String _ rest => contains needle rest
  end.

(** ** Exceptions and outcomes *)

Inductive exn : Type :=
| NameError (name : string)
| ValueError (msg : string)
| AttributeError (attr : string)
| TypeError (msg : string)
| SyntaxError (msg : string)
| LibraryError (type msg : string).

(** [str(e)].  The text of an [AttributeError] names the attribute only;
    CPython's also names the type of the object. *)
Definition str_exn (e : exn) : string :=
  match e with
  | NameError x => "name '" ++ x ++ "' is not defined"
  | ValueError m | TypeError m | SyntaxError m => m
  | AttributeError a => "object has no attribute '" ++ a ++ "'"
  | LibraryError _ m => m
  end.

Inductive outcome (A : Type) : Type :=
| Returned (a : A)
| Raised (e : exn).
Arguments Returned {A} a.
Arguments Raised {A} e.

Definition is_raised {A} (o : outcome A) : bool :=
  match o with Raised _ => true | Returned _ => false end.

(** ** Values *)

(** The three functions decorated with [@tool]. *)
Inductive tool : Type := tool_openai | tool_duckduckgo | tool_exa.

Definition tool_name (t : tool) : string :=
  match t with
  | tool_openai => "search_engine_openai"
  | tool_duckduckgo => "search_engine_duckduckgo"
  | tool_exa => "exa_search"
  end.

Definition tool_eqb (a b : tool) : bool :=
  match a, b with
  | tool_openai, tool_openai | tool_duckduckgo, tool_duckduckgo
  | tool_exa, tool_exa => true
  | _, _ => false
  end.

(** [ChatOpenAI(openai_api_key=..., model=..., ...)]: the model name and the
    sampling keywords the call passes. *)
Record ChatOpenAI : Type :=
  { model_name : string; sampling : list (string * Z) }.

(** [create_react_agent(model=, tools=, name=, prompt=)] *)
Record ReactAgent : Type :=
  { model : ChatOpenAI; tools : list tool; name : string; prompt : string }.

(** [create_supervisor(agents, model=, output_mode=, prompt=,
    add_handoff_back_messages=)] *)
Record Supervisor : Type :=
  { agents : list ReactAgent;
    supervisor_model : ChatOpenAI;
    output_mode : string;
    supervisor_prompt : string;
    add_handoff_back_messages : bool }.

#[warnings="-register-all"] Inductive value : Type :=
| VNone
| VStr (s : string)
| VObj (qualname : string)          (* an imported module, class or function *)
| VLogger                           (* a [logging.Logger] *)
| VLlm (m : ChatOpenAI)
| VClient (base_url : option string) (* an [OpenAI] client *)
| VClass (cname : string) (fields : list string)
| VTool (t : tool)
| VAgent (a : ReactAgent)
| VWorkflow (s : Supervisor)        (* the uncompiled supervisor graph *)
| VCompiled (s : Supervisor)
| VResponse (output_text : string)  (* an OpenAI [Response] object *)
| VDict (items : list (string * value)).

(** Python truth value, for the values an environment variable can have. *)
Definition truthy (v : value) : bool :=
  match v with
  | VNone => false
  | VStr EmptyString => false
  | _ => true
  end.

Definition is_str (v : value) : bool :=
  match v with VStr _ => true | _ => false end.

(** [str(v)] as an f-string field prints it; only strings are interpolated
    by this program, other objects print as an opaque marker. *)
Definition py_str (v : value) : string :=
  match v with
  | VStr s => s
  | VNone => "None"
  | _ => "<object>"
  end.

(** ** The module namespace and the log *)

Definition namespace : Type := list (string * value).

(** Newest binding first: rebinding a name shadows the older value, as
    assignment into [globals()] overwrites it. *)
Fixpoint lookup (x : string) (ns : namespace) : option value :=
  match ns with
  | [] => None
  | (y, v) :: rest => if String.eqb x y then Some v else lookup x rest
  end.

(** The names of [builtins] that the module reads. *)
Definition builtins : list string := ["ValueError"; "Exception"; "float"; "str"].

Definition is_builtin (x : string) : bool :=
  existsb (String.eqb x) builtins.

Record log_record : Type := { level : string; message : string }.

Record world : Type := { globals : namespace; log : list log_record }.

Definition fresh : world := {| globals := []; log := [] |}.

(** ** The expression monad

    An expression reads the namespace, may append to the log and either
    returns or raises.  It cannot rebind a global: only statements do. *)

Definition E (A : Type) : Type :=
  namespace -> list log_record -> outcome A * list log_record.

Definition ret {A} (a : A) : E A := fun _ lg => (Returned a, lg).

Definition raise {A} (e : exn) : E A := fun _ lg => (Raised e, lg).

Definition bind {A B} (c : E A) (k : A -> E B) : E B :=
  fun ns lg =>
    match c ns lg with
    | (Returned a, lg') => k a ns lg'
    | (Raised e, lg') => (Raised e, lg')
    end.

Notation "x <- c ;; k" := (bind c (fun x => k))
  (at level 61, c at next level, right associativity).
Notation "c ;;; k" := (bind c (fun _ => k))
  (at level 61, right associativity).

(** Reading a name: module globals first, then builtins, else [NameError]. *)
Definition load (x : string) : E value :=
  fun ns lg =>
    match lookup x ns with
    | Some v => (Returned v, lg)
    | None => if is_builtin x then (Returned (VObj x), lg)
              else (Raised (NameError x), lg)
    end.

Fixpoint load_all (xs : list string) : E (list value) :=
  match xs with
  | [] => ret []
  | x :: rest => v <- load x ;; vs <- load_all rest ;; ret (v :: vs)
  end.

(** [try: body except Exception as e: handler e] *)
Definition try_except {A} (body : E A) (handler : exn -> E A) : E A :=
  fun ns lg =>
    match body ns lg with
    | (Raised e, lg') => handler e ns lg'
    | r => r
    end.

(** Lifting the outcome of a call into a library. *)
Definition lift {A} (o : outcome A) : E A := fun _ lg => (o, lg).

(** [lg.info(msg)], [lg.error(msg)] *)
Definition log_call (lg : value) (lvl msg : string) : E value :=
  match lg with
  | VLogger => fun _ l => (Returned VNone, (l ++ [{| level := lvl; message := msg |}])%list)
  | _ => raise (AttributeError lvl)
  end.

(** ** String literals *)

(** A literal as written: the [f] prefix and the text between the quotes,
    escapes already replaced by the characters they denote.  A character
    outside ASCII (the degree sign of two prompts) is held as its UTF-8
    bytes. *)
Record literal : Type := { fprefix : bool; text : string }.

Inductive piece : Type :=
| Lit (s : string)
| Field (x : string).   (* a replacement field; every field here is a name *)

Fixpoint rev_string (s acc : string) : string :=
  match s with
  | EmptyString => acc
  | String c r => rev_string r (String c acc)
  end.

(** Splitting the text of an f-string into literal parts and replacement
    fields.  [cur] holds, reversed, the characters of the part being read.
    Doubled braces are literal braces; a lone closing brace or an unclosed
    field is a syntax error. *)
Fixpoint split_fields (inside : bool) (cur : string) (s : string)
  : option (list piece) :=
  match s with
  | EmptyString =>
      if inside then None else Some [Lit (rev_string cur EmptyString)]
  | String c r =>
      if inside then
        if Ascii.eqb c "}"
        then option_map (cons (Field (rev_string cur EmptyString)))
                        (split_fields false EmptyString r)
        else split_fields true (String c cur) r
      else if Ascii.eqb c "{" then
        match r with
        | String "{" r' => split_fields false (String c cur) r'
        | _ => option_map (cons (Lit (rev_string cur EmptyString)))
                          (split_fields true EmptyString r)
        end
      else if Ascii.eqb c "}" then
        match r with
        | String "}" r' => split_fields false (String c cur) r'
        | _ => None
        end
      else split_fields false (String c cur) r
  end.

Definition pieces_of (l : literal) : option (list piece) :=
  split_fields false EmptyString (text l).

(** The names an f-string reads, in evaluation order. *)
Fixpoint field_names (ps : list piece) : list string :=
  match ps with
  | [] => []
  | Lit _ :: rest => field_names rest
  | Field x :: rest => x :: field_names rest
  end.

Definition free_names (l : literal) : list string :=
  if fprefix l then
    match pieces_of l with Some ps => field_names ps | None => [] end
  else [].

Fixpoint render (ps : list piece) : E string :=
  match ps with
  | [] => ret EmptyString
  | Lit s :: rest => t <- render rest ;; ret (s ++ t)
  | Field x :: rest => v <- load x ;; t <- render rest ;; ret (py_str v ++ t)
  end.

(** Evaluating a literal: a plain literal is its text, braces included; an
    f-string substitutes each field, left to right. *)
Definition eval_literal (l : literal) : E string :=
  if fprefix l then
    match pieces_of l with
    | Some ps => render ps
    | None => raise (SyntaxError "f-string")
    end
  else ret (text l).

(** The string a literal denotes once every field is bound in [ns]; an
    unbound field contributes nothing (see [eval_literal_fill]). *)
Fixpoint fill_pieces (ns : namespace) (ps : list piece) : string :=
  match ps with
  | [] => EmptyString
  | Lit s :: rest => s ++ fill_pieces ns rest
  | Field x :: rest =>
      match lookup x ns with Some v => py_str v | None => EmptyString end
      ++ fill_pieces ns rest
  end.

Definition fill (ns : namespace) (l : literal) : string :=
  if fprefix l then
    match pieces_of l with Some ps => fill_pieces ns ps | None => EmptyString end
  else text l.

(** ** The data model declared by the module *)

(** [class FuelComposition(BaseModel)], lines 42-47; a Python [float] field
    is read here as a rational. *)
Record FuelComposition : Type :=
  { calorific_value : Q;
    moisture : Q;
    chlorine : Q;
    ash : Q;
    particle_size_uniformity : Q }.

(** Its declared fields, in declaration order ([model_fields]). *)
Definition FuelComposition_fields : list string :=
  ["calorific_value"; "moisture"; "chlorine"; "ash"; "particle_size_uniformity"].

(** ** The prompt literals, line by line as in the source *)

(** [sorting_supervisor_prompt], lines 126-157: an f-string triple-quoted literal. *)
Definition sorting_supervisor_prompt : literal :=
  {| fprefix := true;
     text := py_lines [
EmptyString;
"Role: As a highly experienced Sorting Supervisor specializing in municipal solid waste (MSW) processing, your primary responsibility is to identify and remove large, non-processable items from MSW at a processing plant in {place}. Your tasks include:";
EmptyString;
"Instructions: - Research and understand the process of removing large, non-processable items from MSW in {place}, utilizing available tools to gather detailed insights.";
" - Analyze a provided MSW composition profile, including the percentage of each material category, and determine the proportion of large, non-processable waste within the specified categories, based on {place}-specific data.";
" - Adjust the waste composition by reducing the percentage of the relevant category to account for the removal of large, non-processable items, ensuring only appropriate components are removed as per the process.";
EmptyString;
"Tools: You have access to the following tools:";
" - **search_engine_openai**: For searching and retrieving information from OpenAI's web search tool.";
" - **search_engine_duckduckgo**: For searching and retrieving information from DuckDuckGo's search engine.";
" - **exa_search**: For searching and retrieving information from Exa's search engine.";
EmptyString;
"**Mandatory Tool Usage**: For all data related to {place}'s MSW, including the percentage of non-processable waste, categories of large non-processable items, and the removal process, you MUST use the provided tools to fetch the most recent and accurate information. Do not rely solely on internal knowledge.";
"- The % of non processable waste in {place}'s Municipal Solid Waste.";
"- What are the different large non-processable items that are typically removed from MSW.";
"- Also the categories from where we can remove these items.";
"- The source links should also be returned along with the information.";
EmptyString;
"Output: Provide a comprehensive explanation of:";
" - The process for removing large, non-processable items.";
" - The specific components removed, including the rationale for their removal.";
" - The final waste composition after removal, ensuring all listed components are considered and no components are removed unless specified by the process.";
" - Recalculate the new waste composition, expressing each component as a percentage and normalizing the total to 100%.";
" - Use provided tools to access detailed information on waste composition, the percentage of large, non-processable waste in {place}, and the removal process, ensuring accuracy and relevance to the local context.";
" - Ensure that your analysis is based on credible data for {place} and that the removal process adheres strictly to the guidelines for large, non-processable items, avoiding any unintended removal of processable components.";
" - Ignore any component that is 0% in the original waste composition.";
EmptyString;
"NOTE: - No waste category is considered for recycling or composting in this task. The focus is solely on the removal of large, non-processable items from the waste stream.";
" - Always normalize the new waste composition to 100% after adjustments.";
" - You are only bound to remove large, non-processable items from the waste composition. Do not remove any other components.";
" - If you are removing certain percentage of a component from the waste composition, please mention the percentage removed and Make sure the new waste composition is accurate and normalized to 100%.";
EmptyString
     ] |}.

(** [sorting_engineer_prompt], lines 166-195: a plain triple-quoted literal. *)
Definition sorting_engineer_prompt : literal :=
  {| fprefix := false;
     text := py_lines [
EmptyString;
"Role: - As a mechanical sorting engineer specializing in refuse-derived fuel (RDF) production from municipal solid waste (MSW), your expertise involves operating advanced sorting equipment, including magnets for ferrous metals, eddy current separators for non-ferrous metals, glass removal systems, and aggregate/rock removal systems. You are provided with an MSW composition profile detailing the percentage of each material category.";
EmptyString;
"Instructions: - Mechanical sorting is a critical step in the RDF production process, where the goal is to remove unwanted materials from the waste stream to produce a high-quality RDF product.";
" - In Mechanical sorting, we focus on removing non-processable items, that is metals, glass, and aggregates, which can interfere with the RDF production process.";
" - Most of the metal components (few fine metallic might still remain) are removed in the first step of the process, while glass and aggregates are removed in the second step.";
" - Utilize available tools to analyze the provided waste composition and the RDF production process, evaluating how mechanical sorting affects the composition.";
EmptyString;
"Tools: You have access to the following tools:";
" - **search_engine_openai**: For searching and retrieving information from OpenAI's web search tool.";
" - **search_engine_duckduckgo**: For searching and retrieving information from DuckDuckGo's search engine.";
" - **exa_search**: For searching and retrieving information from Exa's search engine.";
EmptyString;
"**Mandatory Tool Usage**: For all data related to {place}'s MSW you MUST use the provided tools to fetch the most recent and accurate information. Do not rely solely on internal knowledge.";
"- To understand to precision of removal of glass and metal removal using the seperation process of mechincal sorting.";
"- Understand the composition and see what compositions can contain metals, glass and aggregates.";
EmptyString;
"Output: Calculate the waste composition after mechanical sorting and RDF production, delivering:";
" - A clear, detailed explanation of the mechanical sorting process, including the equipment used and the sequence of operations.";
" - A list of specific components removed, with a rationale for their removal based on the sorting process and RDF production requirements.";
" - The final waste composition, ensuring all listed components are accounted for and only components specified by the process are removed.";
" - If exact composition data is unavailable, select the closest available composition, providing a justification for your choice.";
" - Recalculate the new waste composition, presenting each component as a percentage and normalizing the total to 100%.";
EmptyString;
"Note: - Verify that no components are removed unless explicitly required by the mechanical sorting and RDF production process, using tools to ensure accuracy and relevance.";
" - Present the final waste composition in a structured format (e.g., a table or dictionary), including the percentage of each material and a summary of the total.";
" - Ensure all analyses are supported by detailed insights from provided tools, maintaining precision and adherence to the mechanical sorting process specific to RDF production.";
" - Remove components that the mechanical sorting process is supposed to remove, including metals, glass, and aggregates.";
" - Make sure the new waste composition is accurate and normalized to 100%.";
EmptyString
     ] |}.

(** [chlorine_reduction_specialist_prompt], lines 204-224: a plain triple-quoted literal. *)
Definition chlorine_reduction_specialist_prompt : literal :=
  {| fprefix := false;
     text := py_lines [
EmptyString;
("Role: Lets do a role play where you are a Chlorine Reduction Specialist, tasked with reducing chlorine content in RDF." ++ nl);
EmptyString;
("Instructions: - The Chlorine Specialist uses provided tools to validate efficacy assumptions, predict chlorine content reduction, and ensure the RDF stream meets low-chlorine specifications." ++ nl);
" - It refines the waste stream from the Sorting Engineer for downstream processing.";
(" - Your main tasks include:" ++ nl);
"   1. **Analyze the Waste Stream**: Review the waste stream composition provided by the Sorting Engineer, focusing on chlorine content and its impact on RDF quality.";
"   2. **Assess Chlorine Content**: Use the tools to determine the chlorine content in the waste stream, particularly focusing on the plastic category and any other relevant categories.";
EmptyString;
"Tools: You have access to the following tools:";
" - **search_engine_openai**: For searching and retrieving information from OpenAI's web search tool.";
" - **search_engine_duckduckgo**: For searching and retrieving information from DuckDuckGo's search engine.";
" - **exa_search**: For searching and retrieving information from Exa's search engine.";
EmptyString;
"**Mandatory Tool Usage**: For all data related to {place}'s MSW you MUST use the provided tools to fetch the most recent and accurate information. Do not rely solely on internal knowledge.";
" - The % of PVC available in the plastic category.";
" - If any other category has chlorine content.";
EmptyString;
"Note: - The source links should also be returned along with the information.";
" - Make sure the new waste composition is accurate and normalized to 100%.";
EmptyString
     ] |}.

(** [shredding_purification_technician_prompt], lines 233-257: a plain triple-quoted literal. *)
Definition shredding_purification_technician_prompt : literal :=
  {| fprefix := false;
     text := py_lines [
EmptyString;
"Role: - You are a Shredding and purification technician, responsible for shredding and fine metal removal in PDF fluff production.";
EmptyString;
"Instruction: - Research and understand the composition of the waste and what would be the new composition after shredding and removing fine metals from the composition.";
" - Provide a comprehensive explanation of:";
"   a. The process done for shredding and fine metal removal (Ferrous and non ferrous).";
"   b. The specific components removed, including the rationale for their removal.";
" - The final waste composition after removal, ensuring all listed components are considered and no components are removed unless specified by the process.";
EmptyString;
"Tools: You have access to the following tools:";
" - **search_engine_openai**: For searching and retrieving information from OpenAI's web search tool.";
" - **search_engine_duckduckgo**: For searching and retrieving information from DuckDuckGo's search engine.";
" - **exa_search**: For searching and retrieving information from Exa's search engine.";
EmptyString;
"**Mandatory Tool Usage**: For all data related to {place}'s MSW you MUST use the provided tools to fetch the most recent and accurate information. Do not rely solely on internal knowledge.";
" - Use provided tools to access detailed information on waste composition, the percentage of fine metal present in waste composition in {place}, and the removal process, ensuring accuracy and relevance to the local context.";
" - If any other category has chlorine content.";
EmptyString;
"Output: - Recalculate the new waste composition, expressing each component as a percentage and normalizing the total to 100%.";
EmptyString;
"Note:";
" - Ensure that your analysis is based on credible data for {place} and that the removal process adheres strictly to the guidelines for fine metal removal, avoiding any unintended removal of processable components.";
" - You'll only remove components only if they are specified by the process and exist in the waste composition.";
" - Make sure the new waste composition is accurate and normalized to 100%.";
EmptyString
     ] |}.

(** [R4_process_engineer_prompt], lines 266-310: an f-string triple-quoted literal. *)
Definition R4_process_engineer_prompt : literal :=
  {| fprefix := true;
     text := py_lines [
EmptyString;
("Role: You are an higly experienced R4 Process Engineer with 10 years of experience handling R4 Machines." ++ nl);
("The R4 Machine is a specialized piece of equipment used in the recycling industry, particularly for processing waste materials." ++ nl);
"It converts RDF (Refuse-Derived Fuel) into a solid fuel product that can be used in various applications, including making solid engineered fuel using Refuse-Derived Fuel (RDF).";
EmptyString;
"Instruction: The sub processes in the R4 Machines are as follows:";
" 1) This process involves removing moisture from the RDF material before it enters the R4 machine. The vacuum environment helps to evaporate water at lower temperatures.";
("    Evacuate the chamber to {r4_negative_pressure} torr and heat the material to 120-140°C. This process is helps evaporate free and bound water and reduce the moisture to below 10%." ++ nl);
" 2) Dynamic Organic Repolymerization: This process involves the use of heat and pressure to break down the organic materials in the RDF, converting them into a more stable and energy-dense form.";
("    Below are the steps involved in this process:" ++ nl);
"      a) Raise Jacket temperature to {r4_temperature}°C (capable of 260°C) via oil heated jacket.";
"      b) The RDF core mass reaches {r4_temperature}°C (capable of 260°C) over {r4_retention_time} seconds. A good amount of remaining moisture is vaporised from the RDF in this process.";
" 3) As the temperature increases, different materials in the RDF will begin to break down and release gases. Like light hydrocarbons and gases. If there are PVC plastic in the RDF, they will start to decompose and release HCl gas.";
"    Common plastics like polyethylene, polypropylene, polystyrene soften and melt at these temperatures. These become gooey and sticky, which help the RDF to bind together.";
" The heat in R4 Machines breakdown chemical bonds, creating free radicals(highly reactive molecules). Plastics and other organic materials in the RDF can react with these free radicals to form new hydrocarbon-rich chains. This forms a durable, waterproof and hydrocarbon-rich solid fuel.";
" The R4 machines continuously mixes the RDF material to ensure even heating. Also plastic coat and encapasulate fibrous materials like paper, cardboard, wood, etc, which helps to improve the overall quality of the output product.";
(" These are the basic steps involved in the dynamic organic repolymerization process. The specific parameters and conditions may vary depending on the type of RDF being processed and the desired properties of the output product." ++ nl);
(" You need to have an understanding of the chemical and physical properties of the materials being processed, as well as the principles of thermodynamics and reaction kinetics." ++ nl);
(" You must be able to tell what the results would be if the parameters are changed. For example, if the temperature is increased or decreased, what would be the effect on the output product?" ++ nl);
(" Also, return a detailed explanation of how the values of the properties are calculated based on the process and the composition of the RDF." ++ nl);
(" All process done in the R4 machine should be mentioned in details and how each factor was considered in the process before the final output is produced." ++ nl);
EmptyString;
"Tools: You have access to the following tools:";
" - **search_engine_openai**: For searching and retrieving information from OpenAI's web search tool.";
" - **search_engine_duckduckgo**: For searching and retrieving information from DuckDuckGo's search engine.";
" - **exa_search**: For searching and retrieving information from Exa's search engine.";
EmptyString;
"**Mandatory Tool Usage**: For all data related to {place}'s MSW you MUST use the provided tools to fetch the most recent and accurate information. Do not rely solely on internal knowledge.";
" - Use provided tools to access detailed information about the properties of solid fuels, including moisture content, chlorine content, ash content, calorific value, bulk density, chlorine/sulfur content, and particle size uniformity.";
EmptyString;
"Output: The final property and its value should be in a table format with three columns (properties, value, description) the following rows:";
("            1) Moisture:" ++ nl);
("            2) Chlorine (Cl):" ++ nl);
("            3) Ash Content:" ++ nl);
("            4) Calorific value (in MJ/kg):" ++ nl);
("            5) particle size uniformity:" ++ nl);
EmptyString;
"Note: - The output doughy and sticky, make sure you do the prediction for the fuel properties based on the current form of the fuel.";
"- Never do any task that is not assigned to you or you are not supposed to do.";
"- Water bath process is not part of the R4 machine process.";
"- The final properties of the solid fuel but be quantified based on the final waste composition and the process it has undergone.";
"- Make sure you do the task assigned to you and do not do the task of other agents.";
"- Do not assume any process. The process is already defined in the prompt.";
"- Provide links to the sources of information used in the process.";
EmptyString
     ] |}.

(** [water_bath_process_engineer_prompt], lines 319-353: a plain triple-quoted literal. *)
Definition water_bath_process_engineer_prompt : literal :=
  {| fprefix := false;
     text := py_lines [
EmptyString;
("Role: You are a higly experienced Water bath Process Engineer with expertise in understanding the process of water bath and how the properties of fuel chunks change after they pass through the water bath conveyor." ++ nl);
EmptyString;
"Instruction:";
"* Process Description:";
(" - The sticky dough fuel product is extruded though a heated die head to 2" ++ dq ++ "x2" ++ dq ++ " chunks. These chunks have a coating of plastic on it making it less prone to damage when introduced to water bath process.");
" - The chunks are dropped into a water bath conveyor, where they are cooled, solidified and surface chlorine is removed.";
" - The water bath is typically maintained at a temperature less than 60°C (122-140°F) for a duration of less than 5 minutes to ensure proper cooling happens and the surface chlorine is removed.";
" - The water bath process is crucial for ensuring the quality and safety of the final product, as it helps to remove any residual chlorine and solidify the fuel chunks.";
"* Your task is to:";
" 1. Research and understand the water bath process, including its purpose, parameters, and effects on the final product.";
(" 2. Analyze the provided fuel property of the material output from R4 machine and determine how the fuel property would be affected after cutting it into 2" ++ dq ++ "x2" ++ dq ++ " chunks and passing it through the water bath conveyor.");
" 3. Calculate the new fuel property composition after the water bath process, delivering:";
"     - A clear, detailed explanation of the water bath process, including the sequence of operations.";
"     - A list of specific fuel property changes, with a rationale for their removal based on the water bath process requirements.";
"     - The final fuel composition, ensuring all listed components are accounted for and only components specified by the process are removed.";
" 4. Verify that no components or changed that are removed unless explicitly required by the water bath process, using tools to ensure accuracy and relevance.";
(" 5. Calulcate how cutting the fuel into 2" ++ dq ++ "x2" ++ dq ++ " chunks affects the fuel property composition like how much will the bulk density affect and how much will the calorific value increase by with explantion.");
" 6. The final fuel property composition in a structured format (e.g., a table or dictionary), including a summary of the properties.";
"    Ensure all analyses are supported by detailed insights from provided tools, maintaining precision and adherence to the water bath process specific to RDF production.";
EmptyString;
"Output: Provide a comprehensive explanation of: Tools: You have access to the following tools:";
" - **search_engine_openai**: For searching and retrieving information from OpenAI's web search tool.";
" - **search_engine_duckduckgo**: For searching and retrieving information from DuckDuckGo's search engine.";
" - **exa_search**: For searching and retrieving information from Exa's search engine.";
EmptyString;
"**Mandatory Tool Usage**: For all data related to {place}'s MSW you MUST use the provided tools to fetch the most recent and accurate information. Do not rely solely on internal knowledge.";
" - Use provided tools to understand how the water bath process affects the fuel properties, including moisture content, chlorine content, ash content, calorific value, bulk density, chlorine/sulfur content, and particle size uniformity.";
"   - The process done for water bath.";
"   - The specific components removed, including the rationale for their removal.";
"   - The final fuel composition after removal, ensuring all listed components are considered and no components are removed unless specified by the process.";
("   -  Also, return a detailed explanation of how the values of the properties are calculated based on the process and the composition of the RDF." ++ nl);
("Note: - From the doughy product extruded into 2" ++ dq ++ "x2" ++ dq ++ " chunks, it is important to understand how the water bath process affects the final product.");
" - Make sure the output is in a quantified format, like a table or dictionary.";
EmptyString
     ] |}.

(** [process_engineer_prompt], lines 362-390: a plain triple-quoted literal. *)
Definition process_engineer_prompt : literal :=
  {| fprefix := false;
     text := py_lines [
EmptyString;
"Role: As a process engineer with over 20 years of expertise in waste management, your role is to oversee the processing of municipal solid waste (MSW) to produce refuse-derived fuel (RDF). You are provided with a waste composition profile, including the percentage of each material category. Your task is to manage the waste processing workflow by coordinating with different specialized agents:";
EmptyString;
"Agents available: ";
" - Sorting Supervisor Agent: This agent analyzes the MSW composition to identify and remove large, non-processable items, providing an updated composition after their removal.";
" - Sorting Engineer Agent: This agent processes the composition received from the Sorting Supervisor Agent, evaluating the waste composition and applying the RDF production process to further refine it.";
" - Chlorine-Reduction Specialist Agent: This agent focuses on reducing chlorine content in the RDF stream, ensuring it meets low-chlorine specifications.";
" - Shredding and Purification Technician Agent: This agent is responsible for shredding the RDF material and removing fine metals, ensuring the final product is suitable for downstream processing.";
" - R4 Process Engineer Agent: This agent operates the R4 machine, converting RDF into a solid fuel product through dynamic organic repolymerization.";
" - Water Bath Process Engineer Agent: This agent manages the water bath process, cooling and solidifying the RDF product while removing surface chlorine.";
EmptyString;
"Instructions:";
" - Supervising the sequential processing of the waste composition only through agents mentioned in the workflow.";
" - Ensuring that each agent executes their specific task in the correct order, providing the detailed steps taken for the input and output for each step. ";
" - Decisions should never be made by internal knowledge alone; always use the provided tools to gather accurate and relevant information for each step of the process.";
" - Run only the agents that have **yes** in front of them, and skip the ones with **no** in front of them.";
EmptyString;
"Output:";
" - Providing a detailed explanation of each process, the components removed, the rationale for their removal, and the final waste composition.";
" - Ensuring all components in the provided composition are considered, with only the appropriate components removed as per each process.";
" - Recalculating the final waste composition, expressing each component as a percentage and normalizing the total to 100%.";
EmptyString;
"Note: - Ensure that the processes are executed accurately, with clear coordination between agents, and that the final composition reflects the combined effects of removing non-processable items and applying RDF production, without removing any components not specified by the respective processes.";
"- Do not instruct the Agents on how to do a particular task. The sequence of each agent executing will be controlled by you and also the correct input and output is taken care by you.";
("- Make sure you run all the agents that have **yes** in front of them and dont ignore the approved (yes) agents" ++ nl);
"- You are only bound to run the agents that have **yes** in front of them and skip the ones with **no** in front of them.";
("- Never do any task that is not assigned to you. You are ibky assigned to oversee the process and ensure that the agents execute their tasks correctly." ++ nl);
EmptyString;
EmptyString
     ] |}.
(** ** The declared agents

    The two models, the six react agents and the supervisor, as the calls of
    lines 25-37, 158-359 and 392-398 build them.  Two prompts are f-strings
    over names the module does not define; the declarations are therefore
    taken over the values a caller would have to supply for them. *)

Definition llm : ChatOpenAI :=
  {| model_name := "gpt-4.1";
     sampling := [("temperature", 0%Z); ("top_p", 1%Z);
                  ("frequency_penalty", 0%Z); ("presence_penalty", 0%Z)] |}.

Definition llm_o3 : ChatOpenAI := {| model_name := "o3"; sampling := [] |}.

Section Declared.

Variables place r4_negative_pressure r4_temperature r4_retention_time : string.

Definition supplied : namespace :=
  [("place", VStr place);
   ("r4_negative_pressure", VStr r4_negative_pressure);
   ("r4_temperature", VStr r4_temperature);
   ("r4_retention_time", VStr r4_retention_time)].

Definition sorting_supervisor_agent : ReactAgent :=
  {| model := llm;
     tools := [tool_duckduckgo; tool_exa; tool_openai];
     name := "sorting_supervisor";
     prompt := fill supplied sorting_supervisor_prompt |}.

Definition sorting_engineer_agent : ReactAgent :=
  {| model := llm;
     tools := [tool_duckduckgo; tool_exa; tool_openai];
     name := "sorting_engineer";
     prompt := fill supplied sorting_engineer_prompt |}.

Definition chlorine_reduction_specialist_agent : ReactAgent :=
  {| model := llm;
     tools := [tool_duckduckgo; tool_exa; tool_openai];
     name := "chlorine_reduction_specialist";
     prompt := fill supplied chlorine_reduction_specialist_prompt |}.

Definition shredding_purification_technician_agent : ReactAgent :=
  {| model := llm;
     tools := [tool_duckduckgo; tool_exa; tool_openai];
     name := "shredding_purification_technician";
     prompt := fill supplied shredding_purification_technician_prompt |}.

Definition R4_process_engineer_agent : ReactAgent :=
  {| model := llm_o3;
     tools := [tool_openai];
     name := "R4_process_engineer";
     prompt := fill supplied R4_process_engineer_prompt |}.

Definition water_bath_process_engineer_agent : ReactAgent :=
  {| model := llm_o3;
     tools := [tool_openai; tool_duckduckgo; tool_exa];
     name := "water_bath_process_engineer";
     prompt := fill supplied water_bath_process_engineer_prompt |}.

(** Line 393: the list handed to [create_supervisor], in its order. *)
Definition process_engineer_workflow : Supervisor :=
  {| agents := [sorting_engineer_agent; sorting_supervisor_agent;
                chlorine_reduction_specialist_agent;
                shredding_purification_technician_agent;
                R4_process_engineer_agent;
                water_bath_process_engineer_agent];
     supervisor_model := llm_o3;
     output_mode := "last_message";
     supervisor_prompt := fill supplied process_engineer_prompt;
     add_handoff_back_messages := true |}.

End Declared.

(** The stage names in the order of the physical process: bulky-item
    removal, mechanical sorting, chlorine reduction, shredding, thermal
    conversion, cooling.  It is the order in which [process_engineer_prompt]
    lists the agents (lines 366-371). *)
Definition canonical_order : list string :=
  ["sorting_supervisor"; "sorting_engineer"; "chlorine_reduction_specialist";
   "shredding_purification_technician"; "R4_process_engineer";
   "water_bath_process_engineer"].

(** ** Top-level statements *)

Inductive stmt : Type :=
| Import (line : nat) (names : list string)          (* import, from-import *)
| Assign (line : nat) (target : string) (rhs : E value) (* also def and class *)
| Expr (line : nat) (e : E value).

(** The names a statement binds in the module namespace. *)
Definition binds (s : stmt) : list string :=
  match s with
  | Import _ names => names
  | Assign _ x _ => [x]
  | Expr _ _ => []
  end.

Fixpoint as_tools (vs : list value) : option (list tool) :=
  match vs with
  | [] => Some []
  | VTool t :: rest => option_map (cons t) (as_tools rest)
  | _ :: _ => None
  end.

Fixpoint as_agents (vs : list value) : option (list ReactAgent) :=
  match vs with
  | [] => Some []
  | VAgent a :: rest => option_map (cons a) (as_agents rest)
  | _ :: _ => None
  end.

Section Evaluation.

(** [os.environ], and which calls into the imported libraries raise: the
    call (or import) on source line [n] raises [e] when [fails n = Some e]
    and returns otherwise. *)
Variable environ : string -> option string.
Variable fails : nat -> option exn.

Definition lib (line : nat) (v : value) : E value :=
  fun _ lg =>
    match fails line with
    | Some e => (Raised e, lg)
    | None => (Returned v, lg)
    end.

Definition exec_stmt (s : stmt) (w : world) : outcome unit * world :=
  match s with
  | Import line names =>
      match fails line with
      | Some e => (Raised e, w)
      | None =>
          (Returned tt,
           {| globals := (map (fun x => (x, VObj x)) (rev names) ++ globals w)%list;
              log := log w |})
      end
  | Assign _ x rhs =>
      match rhs (globals w) (log w) with
      | (Returned v, lg) =>
          (Returned tt, {| globals := (x, v) :: globals w; log := lg |})
      | (Raised e, lg) => (Raised e, {| globals := globals w; log := lg |})
      end
  | Expr _ e =>
      match e (globals w) (log w) with
      | (Returned _, lg) => (Returned tt, {| globals := globals w; log := lg |})
      | (Raised e, lg) => (Raised e, {| globals := globals w; log := lg |})
      end
  end.

(** Statements run in order; the first exception ends the evaluation and
    leaves the namespace as it was at that point. *)
Fixpoint exec (prog : list stmt) (w : world) : outcome unit * world :=
  match prog with
  | [] => (Returned tt, w)
  | s :: rest =>
      match exec_stmt s w with
      | (Returned _, w') => exec rest w'
      | (Raised e, w') => (Raised e, w')
      end
  end.

(** [os.environ.get(key)] *)
Definition environ_get (key : string) : value :=
  match environ key with
  | Some s => VStr s
  | None => VNone
  end.

(** [ChatOpenAI(openai_api_key=openai_key, ...)] on line [line]. *)
Definition call_ChatOpenAI (line : nat) (m : ChatOpenAI) : E value :=
  load "ChatOpenAI" ;;; load "openai_key" ;;; lib line (VLlm m).

(** [@tool def f(query: str)]: the decorator, the annotation, then the
    decorator call on line [line].  The body is not evaluated. *)
Definition def_tool (line : nat) (t : tool) : E value :=
  load "tool" ;;; load "str" ;;; lib line (VTool t).

(** [x = <literal>] *)
Definition string_literal (l : literal) : E value :=
  s <- eval_literal l ;; ret (VStr s).

(** [create_react_agent(model=m, tools=ts, name=n, prompt=p)] *)
Definition call_create_react_agent
           (line : nat) (m : string) (ts : list string) (n p : string) : E value :=
  load "create_react_agent" ;;;
  mv <- load m ;;
  tvs <- load_all ts ;;
  pv <- load p ;;
  match mv, as_tools tvs, pv with
  | VLlm mo, Some tl, VStr pr =>
      lib line (VAgent {| model := mo; tools := tl; name := n; prompt := pr |})
  | _, _, _ => raise (TypeError "create_react_agent")
  end.

(** [create_supervisor(ags, model=m, output_mode=om, prompt=p,
    add_handoff_back_messages=hb)] *)
Definition call_create_supervisor
           (line : nat) (ags : list string) (m om p : string) (hb : bool) : E value :=
  load "create_supervisor" ;;;
  avs <- load_all ags ;;
  mv <- load m ;;
  pv <- load p ;;
  match as_agents avs, mv, pv with
  | Some al, VLlm mo, VStr pr =>
      lib line (VWorkflow {| agents := al; supervisor_model := mo;
                             output_mode := om; supervisor_prompt := pr;
                             add_handoff_back_messages := hb |})
  | _, _, _ => raise (TypeError "create_supervisor")
  end.

(** [logger.info(msg)] as a statement *)
Definition logger_info (msg : string) : E value :=
  lg <- load "logger" ;; log_call lg "INFO" msg.

Definition all_three : list string :=
  ["search_engine_duckduckgo"; "exa_search"; "search_engine_openai"].

(** The module, statement by statement. *)
Definition agent_py : list stmt :=
  [ Import 1 ["os"];
    Import 2 ["logging"];
    Import 3 ["FastAPI"; "HTTPException"; "status"];
    Import 4 ["CORSMiddleware"];
    Import 5 ["BaseModel"];
    Import 6 ["Dict"; "Literal"];
    Import 7 ["uvicorn"];
    Import 8 ["ChatOpenAI"];
    Import 9 ["create_react_agent"];
    Import 10 ["create_supervisor"];
    Import 11 ["OpenAI"];
    Import 12 ["tool"];
    Import 13 ["DuckDuckGoSearchRun"];
    Import 14 ["LangSmithClient"];
    Import 15 ["traceable"];
    Import 16 ["wrap_openai"];
    (* openai_key = os.environ.get("OPENAI_API_KEY") *)
    Assign 20 "openai_key" (load "os" ;;; ret (environ_get "OPENAI_API_KEY"));
    (* if not openai_key: logger.error(...); raise ValueError(...) *)
    Expr 21 (k <- load "openai_key" ;;
             if truthy k then ret VNone
             else (lg <- load "logger" ;;
                   log_call lg "ERROR" "OPENAI_API_KEY environment variable is not set" ;;;
                   load "ValueError" ;;;
                   raise (ValueError "OPENAI_API_KEY environment variable is not set")));
    Assign 25 "llm" (call_ChatOpenAI 25 llm);
    Assign 34 "llm_o3" (call_ChatOpenAI 34 llm_o3);
    (* client = OpenAI(api_key=openai_key) *)
    Assign 39 "client" (load "OpenAI" ;;; load "openai_key" ;;; lib 39 (VClient None));
    (* class FuelComposition(BaseModel): five float fields *)
    Assign 42 "FuelComposition"
           (load "BaseModel" ;;;
            load_all ["float"; "float"; "float"; "float"; "float"] ;;;
            lib 42 (VClass "FuelComposition" FuelComposition_fields));
    Assign 51 "search_engine_openai" (def_tool 51 tool_openai);
    Assign 73 "search_engine_duckduckgo" (def_tool 73 tool_duckduckgo);
    Assign 92 "exa_search" (def_tool 92 tool_exa);
    Assign 126 "sorting_supervisor_prompt" (string_literal sorting_supervisor_prompt);
    Assign 158 "sorting_supervisor_agent"
           (call_create_react_agent 158 "llm" all_three
                                    "sorting_supervisor" "sorting_supervisor_prompt");
    Assign 166 "sorting_engineer_prompt" (string_literal sorting_engineer_prompt);
    Assign 196 "sorting_engineer_agent"
           (call_create_react_agent 196 "llm" all_three
                                    "sorting_engineer" "sorting_engineer_prompt");
    Assign 204 "chlorine_reduction_specialist_prompt"
           (string_literal chlorine_reduction_specialist_prompt);
    Assign 225 "chlorine_reduction_specialist_agent"
           (call_create_react_agent 225 "llm" all_three
                                    "chlorine_reduction_specialist"
                                    "chlorine_reduction_specialist_prompt");
    Assign 233 "shredding_purification_technician_prompt"
           (string_literal shredding_purification_technician_prompt);
    Assign 258 "shredding_purification_technician_agent"
           (call_create_react_agent 258 "llm" all_three
                                    "shredding_purification_technician"
                                    "shredding_purification_technician_prompt");
    Assign 266 "R4_process_engineer_prompt" (string_literal R4_process_engineer_prompt);
    Assign 311 "R4_process_engineer_agent"
           (call_create_react_agent 311 "llm_o3" ["search_engine_openai"]
                                    "R4_process_engineer" "R4_process_engineer_prompt");
    Assign 319 "water_bath_process_engineer_prompt"
           (string_literal water_bath_process_engineer_prompt);
    Assign 354 "water_bath_process_engineer_agent"
           (call_create_react_agent 354 "llm_o3"
                                    ["search_engine_openai"; "search_engine_duckduckgo";
                                     "exa_search"]
                                    "water_bath_process_engineer"
                                    "water_bath_process_engineer_prompt");
    Assign 362 "process_engineer_prompt" (string_literal process_engineer_prompt);
    Expr 391 (logger_info "Creating process engineer workflow");
    Assign 392 "process_engineer_workflow"
           (call_create_supervisor 392
              ["sorting_engineer_agent"; "sorting_supervisor_agent";
               "chlorine_reduction_specialist_agent";
               "shredding_purification_technician_agent";
               "R4_process_engineer_agent"; "water_bath_process_engineer_agent"]
              "llm_o3" "last_message" "process_engineer_prompt" true);
    Expr 401 (logger_info "Compiling process engineer workflow");
    (* app_workflow = process_engineer_workflow.compile() *)
    Assign 402 "app_workflow"
           (wf <- load "process_engineer_workflow" ;;
            match wf with
            | VWorkflow s => lib 402 (VCompiled s)
            | _ => raise (AttributeError "compile")
            end) ].

(** Importing the module: the statements run in a fresh namespace. *)
Definition import_agent : outcome unit * world := exec agent_py fresh.

End Evaluation.

(** No call into a library raises. *)
Definition no_failure : nat -> option exn := fun _ => None.

(** ** The three tools (lines 51-122)

    A tool body runs in the module namespace: [logger], [client], [OpenAI]
    and [DuckDuckGoSearchRun] are globals read at call time.  The search
    backends themselves are outside the program and are parameters: each
    gives the outcome of the network call for a query. *)

(** What [exa_search] reads of a chat completion: per choice the message
    content and, when the response carries one, the [citations] attribute. *)
Record exa_message : Type := { content : value; citations : option value }.
Record ChatCompletion : Type := { choices : list exa_message }.

Section Tools.

(** [client.responses.create(model="gpt-4o", tools=[web_search_preview],
    input=query)]: the text of the [Response] object it returns. *)
Variable responses_create : string -> outcome string.
(** [DuckDuckGoSearchRun().run(query)] *)
Variable duckduckgo_run : string -> outcome string.
(** [OpenAI(base_url="https://api.exa.ai", ...).chat.completions.create(
    model="exa-pro", messages=[...], extra_body=...)] *)
Variable exa_completions_create : string -> outcome ChatCompletion.

Definition logger_call (lvl msg : string) : E value :=
  lg <- load "logger" ;; log_call lg lvl msg.

(** [except Exception as e: logger.error(f"<what> failed: {str(e)}"); raise] *)
Definition log_and_reraise (what : string) (e : exn) : E value :=
  logger_call "ERROR" (what ++ " failed: " ++ str_exn e) ;;; raise e.

Definition search_engine_openai (query : string) : E value :=
  logger_call "INFO" ("Executing OpenAI search for query: " ++ query) ;;;
  try_except
    (c <- load "client" ;;
     response <- match c with
                 | VClient _ => lift (responses_create query)
                 | _ => raise (AttributeError "responses")
                 end ;;
     logger_call "INFO" "OpenAI search completed successfully" ;;;
     ret (VResponse response))
    (log_and_reraise "OpenAI search").

Definition search_engine_duckduckgo (query : string) : E value :=
  logger_call "INFO" ("Executing DuckDuckGo search for query: " ++ query) ;;;
  try_except
    (load "DuckDuckGoSearchRun" ;;;
     response <- lift (duckduckgo_run query) ;;
     logger_call "INFO" "DuckDuckGo search completed successfully" ;;;
     ret (VStr response))
    (log_and_reraise "DuckDuckGo search").

Definition exa_search (query : string) : E value :=
  logger_call "INFO" ("Executing Exa search for query: " ++ query) ;;;
  try_except
    (load "OpenAI" ;;;
     completion <- lift (exa_completions_create query) ;;
     (* info_dict['content'] = ... if completion.choices else "No content found." *)
     c <- match choices completion with
          | m :: _ => ret (content m)
          | [] => ret (VStr "No content found.")
          end ;;
     (* info_dict['citations'] = ... if completion.choices else "No citations found." *)
     ci <- match choices completion with
           | m :: _ => match citations m with
                       | Some v => ret v
                       | None => raise (AttributeError "citations")
                       end
           | [] => ret (VStr "No citations found.")
           end ;;
     logger_call "INFO" "Exa search completed successfully" ;;;
     ret (VDict [("content", c); ("citations", ci)]))
    (log_and_reraise "Exa search").

Definition call_tool (t : tool) (query : string) : E value :=
  match t with
  | tool_openai => search_engine_openai query
  | tool_duckduckgo => search_engine_duckduckgo query
  | tool_exa => exa_search query
  end.

(** The ways a search can fail: the backend call raises, or the Exa
    response lacks the attribute the tool reads. *)
Inductive search_fails : tool -> string -> exn -> Prop :=
| openai_raises q e :
    responses_create q = Raised e -> search_fails tool_openai q e
| duckduckgo_raises q e :
    duckduckgo_run q = Raised e -> search_fails tool_duckduckgo q e
| exa_raises q e :
    exa_completions_create q = Raised e -> search_fails tool_exa q e
| exa_malformed q m rest :
    exa_completions_create q = Returned {| choices := m :: rest |} ->
    citations m = None ->
    search_fails tool_exa q (AttributeError "citations").

End Tools.

(** A namespace in which the tool bodies find their globals. *)
Definition tools_ready (ns : namespace) : Prop :=
  lookup "logger" ns = Some VLogger /\
  (exists b, lookup "client" ns = Some (VClient b)) /\
  (exists v, lookup "DuckDuckGoSearchRun" ns = Some v) /\
  (exists v, lookup "OpenAI" ns = Some v).

(** ** Looking an agent up by name *)

Definition find_agent (nm : string) (s : Supervisor) : option ReactAgent :=
  find (fun a => String.eqb (name a) nm) (agents s).

(** ** Which globals a right-hand side reads *)





(** * The Worker and the Coordinator of the specification

    [agent.py] declares six workers and their supervisor (lines 158-398)
    and leaves running them to [create_react_agent], [create_supervisor]
    and the reasoning engines: it has no function that runs a worker or
    sequences the stages.  These two operations, and the records they work
    on, are modelled from the specification; the workers they run are the
    agents the module declares. *)

Definition categories : Type := list (string * Q).

(** Modelled from the spec: the record passed between stages (section 3 and
    glossary), missing from [agent.py], where stages exchange message text.
    It is a category-percentage mapping or, for the thermal-conversion and
    cooling stages, a fuel-property record. *)
Inductive material : Type :=
| Categories (c : categories)
| FuelProperties (f : FuelComposition).

(** Modelled from the spec: one entry of [history] (section 3), missing from
    [agent.py]: worker name, removed or changed items, rationale text,
    sources. *)
Record history_entry : Type :=
  { worker_name : string;
    changed_items : list string;
    rationale_text : string;
    sources : list string }.

(** Modelled from the spec: [CompositionState] (section 3), missing from
    [agent.py]: the current record and the append-only audit trail. *)
Record CompositionState : Type :=
  { contents : material; history : list history_entry }.

(** Modelled from the spec: [WorkerSpec] (section 3), of which [agent.py]
    has the declaration only.  Its [name], [tool_set], [task_description]
    and [reasoning_engine_ref] are the name, tools, prompt and model of the
    declared agent; [enabled] is supplied from outside. *)
Record WorkerSpec : Type := { declared : ReactAgent; enabled : bool }.

Definition spec_name (w : WorkerSpec) : string := name (declared w).

(** Modelled from the spec: the reasoning engine collaborator (section 6),
    [infer(task_description, bound_tools, state, history_so_far) ->
    (new_state, rationale)], for the engine variant a worker refers to; a
    black box that may fail.  The sources it cites come with the
    rationale. *)
Inductive answer : Type :=
| Answered (new_state : material) (rationale : string) (cited : list string)
| EngineError (reason : string).

(** Modelled from the spec: the signature of [infer] (section 6), with the
    engine variant the worker refers to as first argument. *)
Definition engine : Type :=
  ChatOpenAI -> string -> list tool -> material -> list history_entry -> answer.

(** Modelled from the spec: the error taxonomy of section 7, missing from
    [agent.py], as far as the worker and the coordinator raise it. *)
Inductive failure : Type :=
| WorkerError (stage reason : string)
| ContractViolation (stage what : string)
| ConfigurationError (what : string).

(** Modelled from the spec: [FinalReport = {final_state, history}] and the
    two ways a run ends (section 4.3): with the report, or abandoned with
    the cause and the history up to that point. *)
Record FinalReport : Type :=
  { final_state : material; final_history : list history_entry }.

(** Modelled from the spec: the outcome of a run (sections 4.3 and 7): the
    report, or the error with the partial history. *)
Inductive run_result : Type :=
| Completed (r : FinalReport)
| Abandoned (cause : failure) (partial : list history_entry).

Fixpoint same_names (a b : list string) : bool :=
  match a, b with
  | [], [] => true
  | x :: a', y :: b' => String.eqb x y && same_names a' b'
  | _, _ => false
  end.

Definition keys (c : categories) : list string := map fst c.

Fixpoint share (k : string) (c : categories) : Q :=
  match c with
  | [] => 0%Q
  | (k', q) :: rest => if String.eqb k k' then q else share k rest
  end.

(** Modelled from the spec: the percentage of category [k] in a record
    (section 3); a category that is absent has 0, and a fuel-property
    record has no categories. *)
Definition mass (k : string) (m : material) : Q :=
  match m with
  | Categories c => share k c
  | FuelProperties _ => 0%Q
  end.

(** Modelled from the spec: the sum of all [categories] values (section 3). *)
Definition total (c : categories) : Q := fold_right Qplus 0%Q (map snd c).

Definition known_keys (m : material) : list string :=
  match m with
  | Categories c => keys c
  | FuelProperties _ => []
  end.

Fixpoint distinct (l : list string) : bool :=
  match l with
  | [] => true
  | x :: rest => negb (existsb (String.eqb x) rest) && distinct rest
  end.

(** Modelled from the spec: a category the worker did not touch (section
    4.2): [k] has in [p] the percentage it had before. *)
Definition unchanged (before : material) (p : categories) (k : string) : bool :=
  Qeq_bool (share k p) (mass k before).

(** Modelled from the spec: "may only remove or reduce" (section 4.2) and
    "percentage (float >= 0)" (section 3): [k] has in [p] a percentage that
    is not negative and not above what it had before. *)
Definition reduced (before : material) (p : categories) (k : string) : bool :=
  Qle_bool 0 (share k p) && Qle_bool (share k p) (mass k before).

Definition mentioned (before : material) (p : categories) : list string :=
  (keys p ++ known_keys before)%list.

(** Modelled from the spec: renormalization (sections 3, 4.2 and the
    scenario of section 8), missing from [agent.py]: every percentage is
    scaled by the same factor so that the whole set sums to 100; a mapping
    with no mass left cannot be renormalized. *)
Definition renormalize (p : categories) : option categories :=
  if Qle_bool (total p) 0 then None
  else Some (map (fun kv => (fst kv, (snd kv * 100 / total p)%Q)) p).

(** Modelled from the spec: the items of a fuel-property record a worker
    changed, for its rationale entry (section 4.2); the properties are the
    fields of [FuelComposition]. *)
Definition properties (f : FuelComposition) : list (string * Q) :=
  [("calorific_value", calorific_value f); ("moisture", moisture f);
   ("chlorine", chlorine f); ("ash", ash f);
   ("particle_size_uniformity", particle_size_uniformity f)].

Definition changed_properties (before : material) (f : FuelComposition)
  : list string :=
  match before with
  | FuelProperties g =>
      keys (filter (fun kv => negb (Qeq_bool (snd kv) (share (fst kv) (properties g))))
                   (properties f))
  | Categories _ => keys (properties f)
  end.

Section Specified.

(** The reasoning engine, and the domain scope of each worker (section
    4.2): [scope w k] holds when category [k] is within the scope of the
    worker named [w]. *)
Variable infer : engine.
Variable scope : string -> string -> bool.

(** What section 7 has checked before execution begins besides the stage
    order: schema compatibility at the stage boundaries and tool bindings.
    The specification leaves their details open. *)
Variable well_configured : list WorkerSpec -> material -> bool.

(** Modelled from the spec: [Worker.run] (section 4.2), missing from
    [agent.py].  The worker asks its engine for the new record and the
    rationale; an engine error is a [WorkerError].  A category mapping is
    accepted only if it is a mapping, every category was kept, reduced or
    removed (none increased, none invented) and every category touched is
    within the worker's scope; it is then renormalized to sum to 100.  Any
    of these failing is a [ContractViolation].  The entry names the worker,
    the items changed, the rationale and the sources. *)
Definition Worker_run (w : WorkerSpec) (st : CompositionState)
  : failure + (material * history_entry) :=
  let a := declared w in
  match infer (model a) (prompt a) (tools a) (contents st) (history st) with
  | EngineError reason => inl (WorkerError (name a) reason)
  | Answered (FuelProperties f) why cited =>
      inr (FuelProperties f,
           {| worker_name := name a;
              changed_items := changed_properties (contents st) f;
              rationale_text := why;
              sources := cited |})
  | Answered (Categories p) why cited =>
      if negb (distinct (keys p))
      then inl (ContractViolation (name a) "category listed twice")
      else if negb (forallb (reduced (contents st) p) (mentioned (contents st) p))
      then inl (ContractViolation (name a) "category increased or invented")
      else if negb (forallb (fun k => unchanged (contents st) p k || scope (name a) k)
                            (mentioned (contents st) p))
      then inl (ContractViolation (name a) "out-of-scope category touched")
      else
        match renormalize p with
        | None => inl (ContractViolation (name a) "sum is not 100 after renormalization")
        | Some c =>
            inr (Categories c,
                 {| worker_name := name a;
                    changed_items :=
                      filter (fun k => negb (unchanged (contents st) p k))
                             (known_keys (contents st));
                    rationale_text := why;
                    sources := cited |})
        end
  end.

(** Modelled from the spec: steps 2 and 3 of [Coordinator.execute] (section
    4.3) for one stage, missing from [agent.py].  An enabled worker is
    invoked with the current state; on success its state is adopted and its
    rationale appended to [history].  A disabled stage is skipped: the state
    passes through unchanged and no entry is created. *)
Definition run_stage (w : WorkerSpec) (st : CompositionState)
  : failure + CompositionState :=
  if enabled w then
    match Worker_run w st with
    | inl f => inl f
    | inr (m, e) => inr {| contents := m; history := (history st ++ [e])%list |}
    end
  else inr st.

(** Modelled from the spec: the iteration of [Coordinator.execute] (section
    4.3, steps 2 to 4), missing from [agent.py]: the stages in the order
    given, the run abandoned at the first failure with the history so far. *)
Fixpoint run_stages (ws : list WorkerSpec) (st : CompositionState)
  : (failure * list history_entry) + CompositionState :=
  match ws with
  | [] => inr st
  | w :: rest =>
      match run_stage w st with
      | inl f => inl (f, history st)
      | inr st' => run_stages rest st'
      end
  end.

(** Modelled from the spec: [Coordinator.execute(initial_state,
    worker_specs) -> FinalReport] (section 4.3), missing from [agent.py],
    which calls [create_supervisor] instead.  Step 1 rejects worker specs
    that are not in the canonical domain order, or not well configured,
    before anything runs; then the stages are iterated and the report
    returned. *)
Definition execute (initial_state : material) (worker_specs : list WorkerSpec)
  : run_result :=
  if negb (same_names (map spec_name worker_specs) canonical_order)
  then Abandoned (ConfigurationError "stage order") []
  else if negb (well_configured worker_specs initial_state)
  then Abandoned (ConfigurationError "stage configuration") []
  else
    match run_stages worker_specs {| contents := initial_state; history := [] |} with
    | inl (f, partial) => Abandoned f partial
    | inr st => Completed {| final_state := contents st; final_history := history st |}
    end.

End Specified.

(** ** Worker specs, engines and scopes used as examples *)


(** The declared agents in the order of line 393. *)
Definition registered_specs (place p t r : string) (on : string -> bool)
  : list WorkerSpec :=
  map (fun a => {| declared := a; enabled := on (name a) |})
      (agents (process_engineer_workflow place p t r)).

(** The composition of the scenario of section 8. *)
Definition msw : categories :=
  [("metal", 5%Q); ("glass", 3%Q); ("plastic", 40%Q); ("organic", 50%Q);
   ("other", 2%Q)].

(** Removes metal and glass and answers with the rest as it stands. *)
Definition removes_metal_and_glass : engine :=
  fun _ _ _ state _ =>
    match state with
    | Categories c =>
        Answered (Categories
                    (filter (fun kv => negb (String.eqb (fst kv) "metal"
                                             || String.eqb (fst kv) "glass")) c))
                 "magnets, eddy current separator and glass removal"
                 ["https://example.org/mechanical-sorting"]
    | other => Answered other "nothing to sort" []
    end.

(** Mechanical sorting may touch metal, glass and aggregates; the chlorine
    stage plastic. *)
Definition example_scope (w k : string) : bool :=
  if String.eqb w "sorting_engineer"
  then String.eqb k "metal" || String.eqb k "glass" || String.eqb k "aggregate"
  else if String.eqb w "chlorine_reduction_specialist" then String.eqb k "plastic"
  else false.



Definition initial_msw : CompositionState :=
  {| contents := Categories msw; history := [] |}.





(** The names the module reads without binding them. *)
Definition undefined_names : list string :=
  ["logger"; "place"; "r4_negative_pressure"; "r4_temperature"; "r4_retention_time"].

(** The statements before line 126. *)
Definition before_first_prompt environ fails : list stmt :=
  firstn 25 (agent_py environ fails).

(** A namespace as the module would leave it for the tools, had a logger
    been configured. *)
Definition tool_globals : namespace :=
  [("logger", VLogger); ("client", VClient None);
   ("DuckDuckGoSearchRun", VObj "DuckDuckGoSearchRun"); ("OpenAI", VObj "OpenAI")].

Definition timeout : exn := LibraryError "APITimeoutError" "Request timed out.".

(** Backends for the examples: OpenAI times out, DuckDuckGo answers, Exa
    answers with no choice. *)
Definition openai_times_out : string -> outcome string := fun _ => Raised timeout.
Definition duckduckgo_answers : string -> outcome string :=
  fun _ => Returned "PVC is 12% of plastics".
Definition exa_answers_nothing : string -> outcome ChatCompletion :=
  fun _ => Returned {| choices := [] |}.

(** ** Namespaces and library behaviours for the further properties *)

(** [os.environ] holding at most OPENAI_API_KEY. *)
Definition environ_with_key (k : option string) : string -> option string :=
  fun x => if String.eqb x "OPENAI_API_KEY" then k else None.

Definition bind_if (x : string) (v : option string) (ns : namespace) : namespace :=
  match v with
  | Some s => (x, VStr s) :: ns
  | None => ns
  end.

(** A namespace in which some of the names the module reads are already
    bound: [logger] to a logger when [lg] holds, the other four to the
    strings given. *)
Definition prebound (lg : bool) (place np temp rt : option string) : namespace :=
  ((if lg then [("logger", VLogger)] else [])
     ++ bind_if "place" place
          (bind_if "r4_negative_pressure" np
             (bind_if "r4_temperature" temp
                (bind_if "r4_retention_time" rt []))))%list.

(** The first of these names that evaluation reaches and does not find,
    once the key is set: [place] on line 127, the three R4 parameters on
    lines 273, 276 and 277, [logger] on line 391. *)
Definition first_missing (lg : bool) (place np temp rt : option string)
  : option string :=
  match place, np, temp, rt, lg with
  | None, _, _, _, _ => Some "place"
  | _, None, _, _, _ => Some "r4_negative_pressure"
  | _, _, None, _, _ => Some "r4_temperature"
  | _, _, _, None, _ => Some "r4_retention_time"
  | _, _, _, _, false => Some "logger"
  | _, _, _, _, true => None
  end.

(** Only the library call on line [n] raises, with [e]. *)
Definition fails_only (n : nat) (e : exn) : nat -> option exn :=
  fun m => if Nat.eqb m n then Some e else None.

(** The lines of the module that call into a library: the sixteen imports,
    the two models, the client, the class, the three decorators, the six
    agents, the supervisor and its compilation. *)
Definition library_lines : list nat :=
  [1; 2; 3; 4; 5; 6; 7; 8; 9; 10; 11; 12; 13; 14; 15; 16;
   25; 34; 39; 42; 51; 73; 92;
   158; 196; 225; 258; 311; 354; 392; 402].

(** The message of lines 22 and 23. *)
Definition key_not_set : string := "OPENAI_API_KEY environment variable is not set".

(** A world in which the five names are supplied. *)
Definition supplied_world (place p t r : string) : world :=
  {| globals := ("logger", VLogger) :: supplied place p t r; log := [] |}.

(** A chat completion with one choice and its citations. *)
Definition one_choice : ChatCompletion :=
  {| choices := [ {| content := VStr "PVC is 12% of plastics";
                     citations := Some (VStr "https://example.org") |} ] |}.

(** * Properties *)

(** ** The expression monad and literals *)

Lemma existsb_eqb_false_not_In (x : string) (l : list string) :
  existsb (String.eqb x) l = false -> ~ In x l.
Proof.
  induction l as [|y l IH]; simpl; intros H; [tauto|].
  apply orb_false_iff in H as [Hxy Hl].
  intros [->|Hin]; [|exact (IH Hl Hin)].
  rewrite String.eqb_refl in Hxy; discriminate.
Qed.

Lemma lookup_app_fresh (x : string) (names : list string) (g : namespace) :
  ~ In x names ->
  lookup x (map (fun y => (y, VObj y)) names ++ g)%list = lookup x g.
Proof.
  induction names as [|y names IH]; simpl; intros Hx; [reflexivity|].
  destruct (String.eqb_spec x y) as [->|_]; [tauto|].
  apply IH; tauto.
Qed.

(** Rendering never writes to the log. *)
Lemma render_log (ps : list piece) (ns : namespace) (lg : list log_record) :
  snd (render ps ns lg) = lg.
Proof.
  induction ps as [|[s|x] ps IH]; simpl; [reflexivity| |].
  - unfold bind. specialize IH. destruct (render ps ns lg) as [[t|e] lg'];
      simpl in *; subst; reflexivity.
  - unfold bind, load.
    destruct (lookup x ns) as [v|]; [|destruct (is_builtin x); [|reflexivity]];
      destruct (render ps ns lg) as [[t|e] lg']; simpl in *; subst; reflexivity.
Qed.

(** An f-string with a field that is neither a global nor a builtin raises
    [NameError]; the name reported is one of its fields. *)
Lemma render_unbound (ps : list piece) (ns : namespace) (lg : list log_record) (x : string) :
  In x (field_names ps) -> lookup x ns = None -> is_builtin x = false ->
  exists y, In y (field_names ps) /\ fst (render ps ns lg) = Raised (NameError y).
Proof.
  induction ps as [|[s|z] ps IH]; simpl; intros Hin Hx Hb; [tauto| |].
  - destruct (IH Hin Hx Hb) as (y & Hy & Hr). exists y. split; [exact Hy|].
    unfold bind. destruct (render ps ns lg) as [[t|e] lg']; simpl in *;
      [discriminate|exact Hr].
  - unfold bind, load.
    destruct (lookup z ns) as [v|] eqn:Hz.
    + destruct Hin as [->|Hin]; [congruence|].
      destruct (IH Hin Hx Hb) as (y & Hy & Hr). exists y. split; [tauto|].
      destruct (render ps ns lg) as [[t|e] lg']; simpl in *;
        [discriminate|exact Hr].
    + destruct (is_builtin z) eqn:Hbz.
      * destruct Hin as [->|Hin]; [congruence|].
        destruct (IH Hin Hx Hb) as (y & Hy & Hr). exists y. split; [tauto|].
        destruct (render ps ns lg) as [[t|e] lg']; simpl in *;
          [discriminate|exact Hr].
      * exists z. split; [tauto|reflexivity].
Qed.

(** When every field is bound, evaluation returns the filled text. *)
Lemma render_fill (ps : list piece) (ns : namespace) (lg : list log_record) :
  (forall x, In x (field_names ps) -> lookup x ns <> None) ->
  render ps ns lg = (Returned (fill_pieces ns ps), lg).
Proof.
  induction ps as [|[s|x] ps IH]; simpl; intros Hb; [reflexivity| |].
  - unfold bind. rewrite (IH Hb). reflexivity.
  - unfold bind, load.
    destruct (lookup x ns) as [v|] eqn:Hx.
    + rewrite IH by (intros y Hy; apply Hb; tauto). reflexivity.
    + exfalso. apply (Hb x); tauto.
Qed.

Lemma eval_literal_fill (l : literal) (ns : namespace) (lg : list log_record) :
  pieces_of l <> None ->
  (forall x, In x (free_names l) -> lookup x ns <> None) ->
  eval_literal l ns lg = (Returned (fill ns l), lg).
Proof.
  unfold eval_literal, fill, free_names.
  destruct (fprefix l); [|reflexivity].
  destruct (pieces_of l) as [ps|]; [|congruence].
  intros _ Hb. apply render_fill, Hb.
Qed.

(** A plain literal is its text in every namespace. *)
Lemma eval_plain_literal (l : literal) (ns : namespace) (lg : list log_record) :
  fprefix l = false -> eval_literal l ns lg = (Returned (text l), lg).
Proof. unfold eval_literal. intros ->. reflexivity. Qed.

Lemma string_literal_unbound (l : literal) (ns : namespace) (lg : list log_record) (x : string) :
  In x (free_names l) -> lookup x ns = None -> is_builtin x = false ->
  exists y, In y (free_names l) /\
            string_literal l ns lg = (Raised (NameError y), lg).
Proof.
  unfold string_literal, eval_literal, free_names, bind.
  destruct (fprefix l); [|simpl; tauto].
  destruct (pieces_of l) as [ps|]; [|simpl; tauto].
  intros Hin Hx Hb.
  destruct (render_unbound ps ns lg x Hin Hx Hb) as (y & Hy & Hr).
  exists y. split; [exact Hy|].
  pose proof (render_log ps ns lg) as Hlg.
  destruct (render ps ns lg) as [[t|e] lg']; simpl in *; [discriminate|].
  congruence.
Qed.

(** ** Execution of statement lists *)

Section ExecFacts.

Variable fails : nat -> option exn.

Lemma exec_app (p q : list stmt) (w : world) :
  exec fails (p ++ q) w =
  match exec fails p w with
  | (Returned _, w') => exec fails q w'
  | (Raised e, w') => (Raised e, w')
  end.
Proof.
  revert w. induction p as [|s p IH]; intros w; simpl; [reflexivity|].
  destruct (exec_stmt fails s w) as [[[]|e] w']; [apply IH|reflexivity].
Qed.

(** A statement changes only the names it binds. *)
Lemma exec_stmt_frame (s : stmt) (w : world) (x : string) :
  ~ In x (binds s) ->
  lookup x (globals (snd (exec_stmt fails s w))) = lookup x (globals w).
Proof.
  destruct s as [line names|line y rhs|line e]; simpl; intros Hx.
  - destruct (fails line); simpl; [reflexivity|].
    apply lookup_app_fresh. rewrite <- in_rev. exact Hx.
  - destruct (rhs (globals w) (log w)) as [[v|e] lg]; simpl; [|reflexivity].
    destruct (String.eqb_spec x y) as [->|_]; [tauto|reflexivity].
  - destruct (e (globals w) (log w)) as [[v|e'] lg]; reflexivity.
Qed.

Lemma exec_frame (prog : list stmt) (w : world) (x : string) :
  ~ In x (flat_map binds prog) ->
  lookup x (globals (snd (exec fails prog w))) = lookup x (globals w).
Proof.
  revert w. induction prog as [|s prog IH]; intros w Hx; simpl; [reflexivity|].
  simpl in Hx. rewrite in_app_iff in Hx.
  pose proof (exec_stmt_frame s w x) as Hs.
  destruct (exec_stmt fails s w) as [[[]|e] w']; simpl in *.
  - rewrite IH by tauto. apply Hs; tauto.
  - apply Hs; tauto.
Qed.

(** An assignment whose right-hand side is an f-string over an unbound
    name ends the evaluation and binds nothing. *)
Lemma exec_unbound_literal (pre post : list stmt) (line : nat) (target : string)
      (l : literal) (w : world) (x : string) :
  In x (free_names l) -> is_builtin x = false ->
  lookup x (globals w) = None -> ~ In x (flat_map binds pre) ->
  let r := exec fails (pre ++ Assign line target (string_literal l) :: post) w in
  is_raised (fst r) = true /\
  forall y, ~ In y (flat_map binds pre) ->
            lookup y (globals (snd r)) = lookup y (globals w).
Proof.
  intros Hin Hb Hw Hpre. cbv zeta. rewrite exec_app.
  pose proof (fun y => exec_frame pre w y) as Hframe.
  destruct (exec fails pre w) as [[[]|e] w1]; simpl in Hframe; [|split; auto].
  assert (Hx1 : lookup x (globals w1) = None) by (rewrite Hframe; assumption).
  destruct (string_literal_unbound l (globals w1) (log w1) x Hin Hx1 Hb)
    as (y & _ & Hr).
  simpl. rewrite Hr. simpl. split; [reflexivity|]. exact Hframe.
Qed.

End ExecFacts.

Lemma agent_py_split environ fails :
  agent_py environ fails =
  (before_first_prompt environ fails
     ++ Assign 126 "sorting_supervisor_prompt" (string_literal sorting_supervisor_prompt)
     :: skipn 26 (agent_py environ fails))%list.
Proof. reflexivity. Qed.

Lemma not_bound_before_prompt environ fails (x : string) :
  In x ("app_workflow" :: undefined_names) ->
  ~ In x (flat_map binds (before_first_prompt environ fails)).
Proof.
  intros Hx. apply existsb_eqb_false_not_In.
  simpl in Hx. repeat (destruct Hx as [<-|Hx]; [reflexivity|]). tauto.
Qed.

Lemma never_bound environ fails (x : string) :
  In x undefined_names ->
  ~ In x (flat_map binds (agent_py environ fails)).
Proof.
  intros Hx. apply existsb_eqb_false_not_In.
  simpl in Hx. repeat (destruct Hx as [<-|Hx]; [reflexivity|]). tauto.
Qed.

(** C1. Importing [agent.py] never succeeds.  When the imported libraries
    behave (no library call raises), the import raises [NameError]: for
    [logger] on line 22 when OPENAI_API_KEY is unset or empty, for [place]
    on line 126 otherwise.  Whatever the libraries do, the evaluation ends
    in an exception with [app_workflow] unbound; [logger], [place],
    [r4_negative_pressure], [r4_temperature] and [r4_retention_time] are
    bound by no statement, and the two f-string prompts read them. *)
Theorem import_agent_raises_NameError :
  forall environ : string -> option string,
    fst (import_agent environ no_failure)
    = Raised (NameError (if truthy (environ_get environ "OPENAI_API_KEY")
                         then "place" else "logger"))
    /\ (forall fails,
           is_raised (fst (import_agent environ fails)) = true
           /\ lookup "app_workflow" (globals (snd (import_agent environ fails))) = None
           /\ forall x, In x undefined_names ->
                        lookup x (globals (snd (import_agent environ fails))) = None)
    /\ free_names sorting_supervisor_prompt = repeat "place" 7
    /\ free_names R4_process_engineer_prompt
       = ["r4_negative_pressure"; "r4_temperature"; "r4_temperature";
          "r4_retention_time"; "place"].
Proof.
  intros environ. split; [|split; [|split]].
  - unfold import_agent, agent_py, environ_get.
    destruct (environ "OPENAI_API_KEY") as [[|c s]|]; vm_compute; reflexivity.
  - intros fails. unfold import_agent.
    assert (Hplace : In "place" (free_names sorting_supervisor_prompt))
      by (vm_compute; tauto).
    pose proof (exec_unbound_literal fails
                  (before_first_prompt environ fails)
                  (skipn 26 (agent_py environ fails))
                  126 "sorting_supervisor_prompt" sorting_supervisor_prompt
                  fresh "place" Hplace eq_refl eq_refl
                  (not_bound_before_prompt environ fails "place"
                     (or_intror (or_intror (or_introl eq_refl)))))
      as [Hr Hframe].
    rewrite <- agent_py_split in Hr, Hframe.
    split; [exact Hr|]. split.
    + rewrite Hframe; [reflexivity|].
      apply not_bound_before_prompt. left; reflexivity.
    + intros x Hx. rewrite exec_frame; [reflexivity|].
      apply never_bound, Hx.
  - vm_compute; reflexivity.
  - vm_compute; reflexivity.
Qed.

(** Once a caller supplies the five names, the same statements run to the
    end and bind [app_workflow] to the declared supervisor.  The pipeline
    studied below is this one. *)
Lemma agent_py_with_names_supplied (key place p t r : string) :
  key <> EmptyString ->
  let environ := fun x => if String.eqb x "OPENAI_API_KEY" then Some key else None in
  let w := exec no_failure (agent_py environ no_failure)
                {| globals := ("logger", VLogger) :: supplied place p t r; log := [] |} in
  fst w = Returned tt /\
  lookup "app_workflow" (globals (snd w))
  = Some (VCompiled (process_engineer_workflow place p t r)).
Proof.
  intros Hkey. destruct key as [|c key]; [congruence|].
  cbv zeta. split; vm_compute; reflexivity.
Qed.

(** ** The tools *)

Section ToolFacts.

Variable responses_create : string -> outcome string.
Variable duckduckgo_run : string -> outcome string.
Variable exa_completions_create : string -> outcome ChatCompletion.

Local Abbreviation call := (call_tool responses_create duckduckgo_run exa_completions_create).
Local Abbreviation fails_with := (search_fails responses_create duckduckgo_run exa_completions_create).

Ltac unfold_tool :=
  unfold call_tool, search_engine_openai, search_engine_duckduckgo, exa_search,
    log_and_reraise, logger_call, try_except, bind, load, lift, log_call,
    raise, ret.

(** What each tool returns when its backend answers. *)
Lemma tool_results (q : string) (ns : namespace) (lg : list log_record) :
  tools_ready ns ->
  (forall r, responses_create q = Returned r ->
             fst (call tool_openai q ns lg) = Returned (VResponse r))
  /\ (forall r, duckduckgo_run q = Returned r ->
                fst (call tool_duckduckgo q ns lg) = Returned (VStr r))
  /\ (forall m rest c, exa_completions_create q = Returned {| choices := m :: rest |} ->
                       citations m = Some c ->
                       fst (call tool_exa q ns lg)
                       = Returned (VDict [("content", content m); ("citations", c)]))
  /\ (exa_completions_create q = Returned {| choices := [] |} ->
      fst (call tool_exa q ns lg)
      = Returned (VDict [("content", VStr "No content found.");
                         ("citations", VStr "No citations found.")])).
Proof.
  intros (Hlog & (b & Hc) & (d & Hd) & (o & Ho)).
  repeat split.
  - intros r Hr. unfold_tool. rewrite Hlog, Hc, Hr. reflexivity.
  - intros r Hr. unfold_tool. rewrite Hlog, Hd, Hr. reflexivity.
  - intros m rest c Hr Hm. unfold_tool. rewrite Hlog, Ho, Hr. simpl.
    rewrite Hm. reflexivity.
  - intros Hr. unfold_tool. rewrite Hlog, Ho, Hr. reflexivity.
Qed.

(** C8. A search that fails raises: no tool turns a failure of its
    backend into a returned value.  In a namespace where the tool finds
    its globals the exception is the backend's own, re-raised after one
    ERROR record carrying its message has been logged. *)
Theorem search_failure_propagates
        (t : tool) (q : string) (e : exn) (ns : namespace) (lg : list log_record) :
  fails_with t q e ->
  is_raised (fst (call t q ns lg)) = true
  /\ (tools_ready ns ->
      exists what,
        call t q ns lg
        = (Raised e,
           lg ++ [ {| level := "INFO";
                      message := "Executing " ++ what ++ " for query: " ++ q |};
                   {| level := "ERROR";
                      message := what ++ " failed: " ++ str_exn e |} ])%list).
Proof.
  intros Hfail. split.
  - destruct Hfail as [q e Hr|q e Hr|q e Hr|q m rest Hr Hm]; unfold_tool;
      destruct (lookup "logger" ns) as [[]|]; simpl; try reflexivity.
    + destruct (lookup "client" ns) as [[]|]; simpl; try reflexivity.
      rewrite Hr. reflexivity.
    + destruct (lookup "DuckDuckGoSearchRun" ns); simpl; try reflexivity.
      rewrite Hr. reflexivity.
    + destruct (lookup "OpenAI" ns); simpl; try reflexivity.
      rewrite Hr. reflexivity.
    + destruct (lookup "OpenAI" ns); simpl; try reflexivity.
      rewrite Hr. simpl. rewrite Hm. reflexivity.
  - intros (Hlog & (b & Hc) & (d & Hd) & (o & Ho)).
    destruct Hfail as [q e Hr|q e Hr|q e Hr|q m rest Hr Hm].
    + exists "OpenAI search". unfold_tool. rewrite Hlog, Hc, Hr. simpl.
      rewrite <- app_assoc. reflexivity.
    + exists "DuckDuckGo search". unfold_tool. rewrite Hlog, Hd, Hr. simpl.
      rewrite <- app_assoc. reflexivity.
    + exists "Exa search". unfold_tool. rewrite Hlog, Ho, Hr. simpl.
      rewrite <- app_assoc. reflexivity.
    + exists "Exa search". unfold_tool. rewrite Hlog, Ho, Hr. simpl.
      rewrite Hm. simpl. rewrite <- app_assoc. reflexivity.
Qed.

End ToolFacts.

Lemma tool_globals_ready : tools_ready tool_globals.
Proof.
  unfold tools_ready, tool_globals; simpl. repeat split; eauto.
Qed.

(** The OpenAI backend times out on a query: the tool raises the timeout. *)
Lemma search_failure_propagates_witness :
  search_fails openai_times_out duckduckgo_answers exa_answers_nothing
               tool_openai "pvc share of plastics" timeout
  /\ is_raised (fst (call_tool openai_times_out duckduckgo_answers exa_answers_nothing
                               tool_openai "pvc share of plastics" tool_globals [])) = true
  /\ (tools_ready tool_globals ->
      exists what,
        call_tool openai_times_out duckduckgo_answers exa_answers_nothing
                  tool_openai "pvc share of plastics" tool_globals []
        = (Raised timeout,
           [] ++ [ {| level := "INFO";
                      message := "Executing " ++ what ++ " for query: "
                                 ++ "pvc share of plastics" |};
                   {| level := "ERROR";
                      message := what ++ " failed: " ++ str_exn timeout |} ])%list).
Proof.
  assert (H : search_fails openai_times_out duckduckgo_answers exa_answers_nothing
                           tool_openai "pvc share of plastics" timeout)
    by (constructor; reflexivity).
  split; [exact H|].
  exact (search_failure_propagates
           openai_times_out duckduckgo_answers exa_answers_nothing
           tool_openai "pvc share of plastics" timeout tool_globals [] H).
Defined.

(** X5. With [logger] unbound, as the module leaves it, every tool raises
    [NameError] for it before it reaches its backend, and logs nothing. *)
Lemma tool_without_logger rc dr ec (t : tool) (q : string) (ns : namespace) lg :
  lookup "logger" ns = None ->
  call_tool rc dr ec t q ns lg = (Raised (NameError "logger"), lg).
Proof.
  intros H. destruct t;
    unfold call_tool, search_engine_openai, search_engine_duckduckgo, exa_search,
      logger_call, bind, load; rewrite H; reflexivity.
Qed.

(** C6. [exa_search], whose docstring promises [str], returns a dictionary
    with the keys [content] and [citations] when Exa answers, and
    [search_engine_openai] returns the response object itself; of the three
    tools only [search_engine_duckduckgo] returns a string. *)
Theorem exa_search_returns_dict :
  let answer := {| choices := [ {| content := VStr "PVC is 12% of plastics";
                                   citations := Some (VStr "https://example.org") |} ] |} in
  let call := call_tool (fun _ => Returned "PVC is 12% of plastics")
                        (fun _ => Returned "PVC is 12% of plastics")
                        (fun _ => Returned answer) in
  fst (call tool_exa "pvc share of plastics" tool_globals [])
  = Returned (VDict [("content", VStr "PVC is 12% of plastics");
                     ("citations", VStr "https://example.org")])
  /\ fst (call tool_openai "pvc share of plastics" tool_globals [])
     = Returned (VResponse "PVC is 12% of plastics")
  /\ fst (call tool_duckduckgo "pvc share of plastics" tool_globals [])
     = Returned (VStr "PVC is 12% of plastics")
  /\ map (fun t => match fst (call t "pvc share of plastics" tool_globals []) with
                   | Returned v => is_str v
                   | Raised _ => false
                   end) [tool_openai; tool_duckduckgo; tool_exa]
     = [false; true; false].
Proof. cbv zeta. repeat split. Qed.

(** ** The declared agents *)

(** C7. The thermal-conversion agent is bound to a single search backend,
    [search_engine_openai], although its own prompt announces all three;
    each of the other five agents is bound to the three backends. *)
Theorem R4_agent_has_one_backend (place p t r : string) :
  tools (R4_process_engineer_agent place p t r) = [tool_openai]
  /\ length (tools (R4_process_engineer_agent place p t r)) = 1
  /\ forallb (fun tl => contains ("**" ++ tool_name tl ++ "**") (text R4_process_engineer_prompt))
             [tool_openai; tool_duckduckgo; tool_exa] = true
  /\ Forall (fun a => forall tl, In tl (tools a) /\ length (tools a) = 3)
            [sorting_supervisor_agent place p t r;
             sorting_engineer_agent place p t r;
             chlorine_reduction_specialist_agent place p t r;
             shredding_purification_technician_agent place p t r;
             water_bath_process_engineer_agent place p t r].
Proof.
  split; [reflexivity|]. split; [reflexivity|]. split; [vm_compute; reflexivity|].
  repeat (apply Forall_cons;
          [intros tl; split; [destruct tl; simpl; auto|reflexivity]|]).
  apply Forall_nil.
Qed.

(** C10. The prompts of the mechanical-sorting, chlorine-reduction,
    shredding and cooling agents are plain literals: in every namespace
    they evaluate to their text, which holds the characters [{place}]
    unreplaced, and that text is the prompt the agent is created with,
    whatever location is supplied.  The prompts of the other two agents are
    f-strings in which [place] is a replacement field. *)
Theorem place_not_interpolated (place p t r : string) :
  Forall (fun al : ReactAgent * literal =>
            fprefix (snd al) = false
            /\ contains "{place}" (text (snd al)) = true
            /\ prompt (fst al) = text (snd al)
            /\ forall ns lg, eval_literal (snd al) ns lg = (Returned (text (snd al)), lg))
         [(sorting_engineer_agent place p t r, sorting_engineer_prompt);
          (chlorine_reduction_specialist_agent place p t r,
           chlorine_reduction_specialist_prompt);
          (shredding_purification_technician_agent place p t r,
           shredding_purification_technician_prompt);
          (water_bath_process_engineer_agent place p t r,
           water_bath_process_engineer_prompt)]
  /\ Forall (fun l => fprefix l = true /\ In "place" (free_names l)
                      /\ contains "{place}" (fill [("place", VStr EmptyString)] l) = false)
            [sorting_supervisor_prompt; R4_process_engineer_prompt].
Proof.
  split.
  - repeat (apply Forall_cons;
            [split; [reflexivity|]; split; [vm_compute; reflexivity|];
             split; [reflexivity|];
             intros ns lg; apply eval_plain_literal; reflexivity|]).
    apply Forall_nil.
  - repeat (apply Forall_cons;
            [split; [reflexivity|]; split; vm_compute; tauto|]).
    apply Forall_nil.
Qed.

(** ** The registered agents *)

Lemma find_agent_name (nm : string) (s : Supervisor) (a : ReactAgent) :
  find_agent nm s = Some a -> In a (agents s) /\ name a = nm.
Proof.
  unfold find_agent. intros H. apply find_some in H as [Hin Heq].
  split; [exact Hin|]. apply String.eqb_eq, Heq.
Qed.

(** The list of line 393 holds the six canonical stages, the first two in
    the other order. *)
Lemma registration_order (place p t r : string) :
  map name (agents (process_engineer_workflow place p t r))
  = ["sorting_engineer"; "sorting_supervisor"; "chlorine_reduction_specialist";
     "shredding_purification_technician"; "R4_process_engineer";
     "water_bath_process_engineer"]
  /\ map name (agents (process_engineer_workflow place p t r)) <> canonical_order
  /\ Permutation (map name (agents (process_engineer_workflow place p t r)))
                 canonical_order.
Proof.
  split; [reflexivity|]. split; [discriminate|]. apply perm_swap.
Qed.

(** ** The fuel-property record *)







(** ** The Worker and the Coordinator *)


Lemma total_scaled (c : categories) (t : Q) :
  (total (map (fun kv => (fst kv, (snd kv * 100 / t)%Q)) c) == total c * 100 / t)%Q.
Proof.
  unfold total. induction c as [|[k q] c IH]; simpl.
  - unfold Qdiv. ring.
  - rewrite IH. unfold Qdiv. ring.
Qed.

Lemma share_scaled (k : string) (c : categories) (t : Q) :
  (share k (map (fun kv => (fst kv, (snd kv * 100 / t)%Q)) c)
   == share k c * 100 / t)%Q.
Proof.
  induction c as [|[k' q] c IH]; simpl.
  - unfold Qdiv. ring.
  - destruct (String.eqb k k'); [reflexivity|exact IH].
Qed.

Lemma share_absent (k : string) (c : categories) :
  ~ In k (keys c) -> share k c = 0%Q.
Proof.
  induction c as [|[k' q] c IH]; simpl; intros H; [reflexivity|].
  destruct (String.eqb_spec k k') as [->|_]; [tauto|]. apply IH. tauto.
Qed.

(** Renormalization scales the whole set by one factor, and the result sums
    to 100. *)
Lemma renormalize_sums_to_100 (p c : categories) :
  renormalize p = Some c ->
  (0 < total p)%Q
  /\ c = map (fun kv => (fst kv, (snd kv * 100 / total p)%Q)) p
  /\ (total c == 100)%Q.
Proof.
  unfold renormalize. destruct (Qle_bool (total p) 0) eqn:Ht; [discriminate|].
  intros H. injection H as <-.
  assert (Hpos : (0 < total p)%Q).
  { apply Qnot_le_lt. intros Hle. apply Qle_bool_iff in Hle. congruence. }
  split; [exact Hpos|]. split; [reflexivity|].
  rewrite total_scaled. field.
  intros H0. rewrite H0 in Hpos. exact (Qlt_irrefl 0 Hpos).
Qed.

Section SpecifiedFacts.

Variable infer : engine.
Variable scope : string -> string -> bool.
Variable well_configured : list WorkerSpec -> material -> bool.

(** What a worker that returns a category mapping has checked. *)
Lemma Worker_run_categories (w : WorkerSpec) (st : CompositionState)
      (c : categories) (e : history_entry) :
  Worker_run infer scope w st = inr (Categories c, e) ->
  exists p why cited,
    infer (model (declared w)) (prompt (declared w)) (tools (declared w))
          (contents st) (history st)
    = Answered (Categories p) why cited
    /\ distinct (keys p) = true
    /\ forallb (reduced (contents st) p) (mentioned (contents st) p) = true
    /\ forallb (fun k => unchanged (contents st) p k || scope (spec_name w) k)
               (mentioned (contents st) p) = true
    /\ renormalize p = Some c.
Proof.
  unfold Worker_run, spec_name. cbv zeta.
  destruct (infer _ _ _ _ _) as [[p|f] why cited|reason]; try discriminate.
  destruct (distinct (keys p)) eqn:H1; simpl; [|discriminate].
  destruct (forallb (reduced (contents st) p) _) eqn:H2; simpl; [|discriminate].
  destruct (forallb (fun k => unchanged (contents st) p k || scope _ k) _) eqn:H3;
    simpl; [|discriminate].
  destruct (renormalize p) as [c'|] eqn:H4; [|discriminate].
  intros H. injection H as <- _. exists p, why, cited.
  repeat (split; [assumption || reflexivity|]). exact H4.
Qed.

Lemma Worker_run_names_the_worker (w : WorkerSpec) (st : CompositionState)
      (m : material) (e : history_entry) :
  Worker_run infer scope w st = inr (m, e) -> worker_name e = spec_name w.
Proof.
  unfold Worker_run, spec_name.
  destruct (infer _ _ _ _ _) as [[p|f] why cited|reason]; try discriminate.
  - destruct (negb (distinct (keys p))); [discriminate|].
    destruct (negb (forallb (reduced (contents st) p) _)); [discriminate|].
    destruct (negb (forallb _ _)); [discriminate|].
    destruct (renormalize p); [|discriminate].
    intros H. injection H as _ <-. reflexivity.
  - intros H. injection H as _ <-. reflexivity.
Qed.

Lemma Worker_run_keeps_zero (w : WorkerSpec) (st : CompositionState)
      (m : material) (e : history_entry) (k : string) :
  (mass k (contents st) == 0)%Q ->
  Worker_run infer scope w st = inr (m, e) ->
  (mass k m == 0)%Q.
Proof.
  intros Hzero Hrun. destruct m as [c|f]; [|reflexivity].
  apply Worker_run_categories in Hrun
    as (p & why & cited & _ & _ & Hred & _ & Hren).
  apply renormalize_sums_to_100 in Hren as (_ & -> & _).
  simpl. rewrite share_scaled.
  assert (Hp : (share k p == 0)%Q).
  { destruct (in_dec string_dec k (keys p)) as [Hin|Hout].
    - rewrite forallb_forall in Hred.
      assert (Hk : reduced (contents st) p k = true)
        by (apply Hred; unfold mentioned; apply in_or_app; left; exact Hin).
      unfold reduced in Hk. apply andb_true_iff in Hk as [Hlo Hhi].
      apply Qle_bool_iff in Hlo, Hhi. rewrite Hzero in Hhi.
      apply Qle_antisym; assumption.
    - rewrite (share_absent k p Hout). reflexivity. }
  rewrite Hp. unfold Qdiv. ring.
Qed.

Lemma run_stage_keeps_zero (w : WorkerSpec) (st st' : CompositionState) (k : string) :
  (mass k (contents st) == 0)%Q ->
  run_stage infer scope w st = inr st' ->
  (mass k (contents st') == 0)%Q.
Proof.
  intros Hzero. unfold run_stage. destruct (enabled w).
  - destruct (Worker_run infer scope w st) as [f|[m e]] eqn:Hrun; [discriminate|].
    intros H. injection H as <-. simpl.
    eapply Worker_run_keeps_zero; eassumption.
  - intros H. injection H as <-. exact Hzero.
Qed.

Lemma run_stages_keep_zero (ws : list WorkerSpec) (st st' : CompositionState) (k : string) :
  (mass k (contents st) == 0)%Q ->
  run_stages infer scope ws st = inr st' ->
  (mass k (contents st') == 0)%Q.
Proof.
  revert st. induction ws as [|w ws IH]; intros st Hzero; simpl.
  - intros H. injection H as <-. exact Hzero.
  - destruct (run_stage infer scope w st) as [f|st1] eqn:Hw; [discriminate|].
    apply IH. eapply run_stage_keeps_zero; eassumption.
Qed.

Lemma run_stage_history (w : WorkerSpec) (st st' : CompositionState) :
  run_stage infer scope w st = inr st' ->
  map worker_name (history st')
  = (map worker_name (history st)
       ++ (if enabled w then [spec_name w] else []))%list.
Proof.
  unfold run_stage. destruct (enabled w).
  - destruct (Worker_run infer scope w st) as [f|[m e]] eqn:Hrun; [discriminate|].
    intros H. injection H as <-. simpl. rewrite map_app. simpl.
    rewrite (Worker_run_names_the_worker w st m e Hrun). reflexivity.
  - intros H. injection H as <-. symmetry. apply app_nil_r.
Qed.


(** A run abandoned by a stage surfaces the entries of the stages that
    completed before it. *)
Lemma run_stages_partial_history (ws : list WorkerSpec) (st : CompositionState)
      (f : failure) (partial : list history_entry) :
  run_stages infer scope ws st = inl (f, partial) ->
  exists done rest,
    filter enabled ws = (done ++ rest)%list /\ rest <> []
    /\ map worker_name partial
       = (map worker_name (history st) ++ map spec_name done)%list.
Proof.
  revert st. induction ws as [|w ws IH]; intros st; simpl; [discriminate|].
  destruct (run_stage infer scope w st) as [f1|st1] eqn:Hw.
  - intros H. injection H as <- <-.
    unfold run_stage in Hw. destruct (enabled w) eqn:Hen; [|discriminate].
    exists [], (w :: filter enabled ws). repeat split.
    + discriminate.
    + simpl. symmetry. apply app_nil_r.
  - intros H. destruct (IH st1 H) as (done & rest & Hf & Hrest & Hp).
    rewrite (run_stage_history w st st1 Hw), <- app_assoc in Hp.
    destruct (enabled w).
    + exists (w :: done), rest. repeat split; [simpl; f_equal; exact Hf|exact Hrest|exact Hp].
    + exists done, rest. repeat split; [exact Hf|exact Hrest|].
      rewrite Hp. reflexivity.
Qed.



(** C3. A category absent or at 0 in a state is absent or at 0 in the state
    any worker returns from it, and in every state any sequence of stages
    reaches from it. *)
Theorem zero_categories_stay_zero (st : CompositionState) (k : string) :
  (mass k (contents st) == 0)%Q ->
  (forall w m e, Worker_run infer scope w st = inr (m, e) -> (mass k m == 0)%Q)
  /\ (forall ws st', run_stages infer scope ws st = inr st' ->
                     (mass k (contents st') == 0)%Q).
Proof.
  intros Hzero. split.
  - intros w m e. apply Worker_run_keeps_zero, Hzero.
  - intros ws st'. apply run_stages_keep_zero, Hzero.
Qed.


End SpecifiedFacts.

(** The coordinator of the specification does not accept the agents in the
    order in which line 393 lists them. *)
Lemma registered_specs_are_rejected
      (infer : engine) (scope : string -> string -> bool)
      (wc : list WorkerSpec -> material -> bool)
      (place p t r : string) (on : string -> bool) (initial_state : material) :
  execute infer scope wc initial_state (registered_specs place p t r on)
  = Abandoned (ConfigurationError "stage order") [].
Proof. reflexivity. Qed.



Lemma no_ash_in_msw : (mass "ash" (contents initial_msw) == 0)%Q.
Proof. reflexivity. Qed.

Lemma zero_categories_stay_zero_witness :
  (mass "ash" (contents initial_msw) == 0)%Q
  /\ (forall w m e,
         Worker_run removes_metal_and_glass example_scope w initial_msw = inr (m, e) ->
         (mass "ash" m == 0)%Q)
  /\ (forall ws st',
         run_stages removes_metal_and_glass example_scope ws initial_msw = inr st' ->
         (mass "ash" (contents st') == 0)%Q).
Proof.
  split; [exact no_ash_in_msw|].
  exact (zero_categories_stay_zero
           removes_metal_and_glass example_scope initial_msw "ash" no_ash_in_msw).
Defined.



(** * Further properties of the module, the tools and the declarations *)

(** ** Importing the module *)

(** X1. With OPENAI_API_KEY unset or empty and a logger available, the
    import stops on line 23: it logs one ERROR record and raises
    [ValueError] with the same message; no model, client, tool or agent has
    been created. *)
Theorem import_without_key_raises_ValueError
        (environ : string -> option string) (place np temp rt : option string) :
  environ "OPENAI_API_KEY" = None \/ environ "OPENAI_API_KEY" = Some EmptyString ->
  let w := exec no_failure (agent_py environ no_failure)
                {| globals := prebound true place np temp rt; log := [] |} in
  fst w = Raised (ValueError key_not_set)
  /\ log (snd w) = [ {| level := "ERROR"; message := key_not_set |} ]
  /\ Forall (fun x => lookup x (globals (snd w)) = None)
            ["llm"; "llm_o3"; "client"; "FuelComposition"; "search_engine_openai";
             "sorting_supervisor_agent"; "app_workflow"].
Proof.
  intros Hkey. cbv zeta.
  remember (exec no_failure (agent_py environ no_failure)
                 {| globals := prebound true place np temp rt; log := [] |})
    as w eqn:Hw.
  unfold agent_py, environ_get in Hw.
  destruct place, np, temp, rt; destruct Hkey as [Hk | Hk]; rewrite Hk in Hw;
    vm_compute in Hw; subst w;
    (split; [reflexivity|]); (split; [reflexivity|]);
    repeat (apply Forall_cons; [reflexivity|]); apply Forall_nil.
Qed.

Lemma import_without_key_raises_ValueError_witness :
  (environ_with_key None "OPENAI_API_KEY" = None
   \/ environ_with_key None "OPENAI_API_KEY" = Some EmptyString)
  /\ fst (exec no_failure (agent_py (environ_with_key None) no_failure)
               {| globals := prebound true None None None None; log := [] |})
     = Raised (ValueError key_not_set)
  /\ log (snd (exec no_failure (agent_py (environ_with_key None) no_failure)
                    {| globals := prebound true None None None None; log := [] |}))
     = [ {| level := "ERROR"; message := key_not_set |} ]
  /\ Forall (fun x => lookup x (globals
                                  (snd (exec no_failure
                                             (agent_py (environ_with_key None) no_failure)
                                             {| globals := prebound true None None None None;
                                                log := [] |}))) = None)
            ["llm"; "llm_o3"; "client"; "FuelComposition"; "search_engine_openai";
             "sorting_supervisor_agent"; "app_workflow"].
Proof.
  split; [left; reflexivity|].
  exact (import_without_key_raises_ValueError
           (environ_with_key None) None None None None (or_introl eq_refl)).
Defined.

(** X2. With the key set and the libraries returning, the import succeeds
    exactly when [logger], [place], [r4_negative_pressure],
    [r4_temperature] and [r4_retention_time] are all bound beforehand;
    otherwise it raises [NameError] for the first of them that evaluation
    reaches: [place], then the three R4 parameters in that order, then
    [logger]. *)
Theorem import_needs_five_names
        (key : string) (lg : bool) (place np temp rt : option string) :
  key <> EmptyString ->
  let r := fst (exec no_failure (agent_py (environ_with_key (Some key)) no_failure)
                     {| globals := prebound lg place np temp rt; log := [] |}) in
  r = match first_missing lg place np temp rt with
      | Some x => Raised (NameError x)
      | None => Returned tt
      end
  /\ (r = Returned tt <->
      lg = true /\ place <> None /\ np <> None /\ temp <> None /\ rt <> None).
Proof.
  intros Hkey. destruct key as [|c key]; [congruence|]. cbv zeta.
  destruct lg, place, np, temp, rt;
    (split; [vm_compute; reflexivity|]);
    (split;
     [vm_compute; intros H; try discriminate H; repeat split; discriminate
     |intros (H1 & H2 & H3 & H4 & H5);
      try discriminate H1; try (exfalso; apply H2; reflexivity);
      try (exfalso; apply H3; reflexivity); try (exfalso; apply H4; reflexivity);
      try (exfalso; apply H5; reflexivity); vm_compute; reflexivity]).
Qed.

Lemma import_needs_five_names_witness :
  "sk-test" <> EmptyString
  /\ fst (exec no_failure (agent_py (environ_with_key (Some "sk-test")) no_failure)
               {| globals := prebound true (Some "Pune") (Some "50") None (Some "600");
                  log := [] |})
     = match first_missing true (Some "Pune") (Some "50") None (Some "600") with
       | Some x => Raised (NameError x)
       | None => Returned tt
       end
  /\ (fst (exec no_failure (agent_py (environ_with_key (Some "sk-test")) no_failure)
                {| globals := prebound true (Some "Pune") (Some "50") None (Some "600");
                   log := [] |}) = Returned tt <->
      true = true /\ Some "Pune" <> None /\ Some "50" <> None
      /\ @None string <> None /\ Some "600" <> None).
Proof.
  assert (H : "sk-test" <> EmptyString) by discriminate.
  split; [exact H|].
  exact (import_needs_five_names "sk-test" true (Some "Pune") (Some "50") None
                                 (Some "600") H).
Defined.

(** X3. With the five names supplied, the key set and the libraries
    returning, the import binds each agent variable to the agent declared
    for it and [app_workflow] to the compiled supervisor, logs the two INFO
    records of lines 391 and 401 and nothing else, and leaves a namespace in
    which every tool finds its globals. *)
Theorem import_with_names_supplied (key place p t r : string) :
  key <> EmptyString ->
  let w := exec no_failure (agent_py (environ_with_key (Some key)) no_failure)
                (supplied_world place p t r) in
  fst w = Returned tt
  /\ lookup "app_workflow" (globals (snd w))
     = Some (VCompiled (process_engineer_workflow place p t r))
  /\ map (fun x => lookup x (globals (snd w)))
         ["sorting_supervisor_agent"; "sorting_engineer_agent";
          "chlorine_reduction_specialist_agent";
          "shredding_purification_technician_agent";
          "R4_process_engineer_agent"; "water_bath_process_engineer_agent"]
     = map (fun a => Some (VAgent a))
           [sorting_supervisor_agent place p t r; sorting_engineer_agent place p t r;
            chlorine_reduction_specialist_agent place p t r;
            shredding_purification_technician_agent place p t r;
            R4_process_engineer_agent place p t r;
            water_bath_process_engineer_agent place p t r]
  /\ log (snd w)
     = [ {| level := "INFO"; message := "Creating process engineer workflow" |};
         {| level := "INFO"; message := "Compiling process engineer workflow" |} ]
  /\ tools_ready (globals (snd w)).
Proof.
  intros Hkey. destruct key as [|c key]; [congruence|]. cbv zeta.
  split; [vm_compute; reflexivity|]. split; [vm_compute; reflexivity|].
  split; [vm_compute; reflexivity|]. split; [vm_compute; reflexivity|].
  unfold tools_ready. split; [vm_compute; reflexivity|].
  split; [eexists; vm_compute; reflexivity|].
  split; eexists; vm_compute; reflexivity.
Qed.

Lemma import_with_names_supplied_witness :
  "sk-test" <> EmptyString
  /\ fst (exec no_failure (agent_py (environ_with_key (Some "sk-test")) no_failure)
               (supplied_world "Pune" "50" "200" "600")) = Returned tt
  /\ tools_ready (globals (snd (exec no_failure
                                     (agent_py (environ_with_key (Some "sk-test")) no_failure)
                                     (supplied_world "Pune" "50" "200" "600")))).
Proof.
  assert (H : "sk-test" <> EmptyString) by discriminate.
  split; [exact H|].
  destruct (import_with_names_supplied "sk-test" "Pune" "50" "200" "600" H)
    as (H1 & _ & _ & _ & H5).
  split; [exact H1|exact H5].
Defined.

(** X4. Nothing at module level catches an exception: when the library call
    on any one of the module's thirty-one library lines raises, the import
    raises that same exception and [app_workflow] stays unbound, even with
    the key set and the five names supplied. *)
Theorem library_failure_ends_import
        (key place p t r : string) (n : nat) (e : exn) :
  key <> EmptyString ->
  In n library_lines ->
  let w := exec (fails_only n e)
                (agent_py (environ_with_key (Some key)) (fails_only n e))
                (supplied_world place p t r) in
  fst w = Raised e /\ lookup "app_workflow" (globals (snd w)) = None.
Proof.
  intros Hkey Hn. destruct key as [|c key]; [congruence|]. cbv zeta.
  unfold library_lines in Hn. simpl in Hn.
  repeat (destruct Hn as [<-|Hn]; [split; vm_compute; reflexivity|]).
  contradiction.
Qed.

Lemma library_failure_ends_import_witness :
  "sk-test" <> EmptyString /\ In 311 library_lines
  /\ fst (exec (fails_only 311 timeout)
               (agent_py (environ_with_key (Some "sk-test")) (fails_only 311 timeout))
               (supplied_world "Pune" "50" "200" "600")) = Raised timeout
  /\ lookup "app_workflow"
            (globals (snd (exec (fails_only 311 timeout)
                                (agent_py (environ_with_key (Some "sk-test"))
                                          (fails_only 311 timeout))
                                (supplied_world "Pune" "50" "200" "600")))) = None.
Proof.
  assert (H : "sk-test" <> EmptyString) by discriminate.
  assert (Hn : In 311 library_lines) by (unfold library_lines; simpl; tauto).
  split; [exact H|]. split; [exact Hn|].
  exact (library_failure_ends_import "sk-test" "Pune" "50" "200" "600" 311 timeout H Hn).
Defined.

(** ** The tools *)

Section MoreToolFacts.

Variable responses_create : string -> outcome string.
Variable duckduckgo_run : string -> outcome string.
Variable exa_completions_create : string -> outcome ChatCompletion.

Local Abbreviation run_tool :=
  (call_tool responses_create duckduckgo_run exa_completions_create).

Ltac open_tool :=
  unfold call_tool, search_engine_openai, search_engine_duckduckgo, exa_search,
    log_and_reraise, logger_call, try_except, bind, load, lift, log_call,
    raise, ret.

(** X6. In a namespace where the tool finds its globals, a search whose
    backend answers returns and leaves exactly two INFO records, the
    announcement with the query and the completion; [exa_search] returns
    the content and citations of the first choice. *)
Theorem search_success_is_logged (q : string) (ns : namespace) (lg : list log_record) :
  tools_ready ns ->
  (forall r, responses_create q = Returned r ->
             run_tool tool_openai q ns lg
             = (Returned (VResponse r),
                lg ++ [ {| level := "INFO";
                           message := "Executing OpenAI search for query: " ++ q |};
                        {| level := "INFO";
                           message := "OpenAI search completed successfully" |} ])%list)
  /\ (forall r, duckduckgo_run q = Returned r ->
                run_tool tool_duckduckgo q ns lg
                = (Returned (VStr r),
                   lg ++ [ {| level := "INFO";
                              message := "Executing DuckDuckGo search for query: " ++ q |};
                           {| level := "INFO";
                              message := "DuckDuckGo search completed successfully" |} ])%list)
  /\ (forall m rest c,
         exa_completions_create q = Returned {| choices := m :: rest |} ->
         citations m = Some c ->
         run_tool tool_exa q ns lg
         = (Returned (VDict [("content", content m); ("citations", c)]),
            lg ++ [ {| level := "INFO";
                       message := "Executing Exa search for query: " ++ q |};
                    {| level := "INFO";
                       message := "Exa search completed successfully" |} ])%list).
Proof.
  intros (Hlog & (b & Hc) & (d & Hd) & (o & Ho)).
  split; [|split].
  - intros r Hr. open_tool. rewrite Hlog, Hc, Hr. simpl.
    rewrite <- app_assoc. reflexivity.
  - intros r Hr. open_tool. rewrite Hlog, Hd, Hr. simpl.
    rewrite <- app_assoc. reflexivity.
  - intros m rest c Hr Hm. open_tool. rewrite Hlog, Ho, Hr. simpl.
    rewrite Hm. simpl. rewrite <- app_assoc. reflexivity.
Qed.

(** X7. An Exa answer without any choice is not a failure: [exa_search]
    returns the two placeholder texts and logs a completion. *)
Theorem exa_search_without_choices (q : string) (ns : namespace) (lg : list log_record) :
  tools_ready ns ->
  exa_completions_create q = Returned {| choices := [] |} ->
  run_tool tool_exa q ns lg
  = (Returned (VDict [("content", VStr "No content found.");
                      ("citations", VStr "No citations found.")]),
     lg ++ [ {| level := "INFO"; message := "Executing Exa search for query: " ++ q |};
             {| level := "INFO"; message := "Exa search completed successfully" |} ])%list.
Proof.
  intros (Hlog & _ & _ & (o & Ho)) Hr.
  open_tool. rewrite Hlog, Ho, Hr. simpl. rewrite <- app_assoc. reflexivity.
Qed.

(** X8. With a logger configured, every call of a tool appends exactly two
    records to the log and removes none: first the announcement, then
    either the completion, when the call returns, or one ERROR record with
    the message of the exception, when it raises. *)
Theorem tool_call_logs_two_records
        (t : tool) (q : string) (ns : namespace) (lg : list log_record) :
  lookup "logger" ns = Some VLogger ->
  exists what second,
    snd (run_tool t q ns lg)
    = (lg ++ [ {| level := "INFO";
                  message := "Executing " ++ what ++ " for query: " ++ q |};
               second ])%list
    /\ ((exists v, fst (run_tool t q ns lg) = Returned v
                   /\ second = {| level := "INFO";
                                  message := what ++ " completed successfully" |})
        \/ (exists e, fst (run_tool t q ns lg) = Raised e
                      /\ second = {| level := "ERROR";
                                     message := what ++ " failed: " ++ str_exn e |})).
Proof.
  intros Hlog.
  assert (Happ : forall a b : log_record, ((lg ++ [a]) ++ [b] = lg ++ [a; b])%list)
    by (intros a b; rewrite <- app_assoc; reflexivity).
  destruct t.
  - exists "OpenAI search". open_tool. rewrite Hlog. simpl.
    destruct (lookup "client" ns) as [[]|]; simpl;
      try (eexists; split; [apply Happ|right; eexists; split; reflexivity]).
    destruct (responses_create q) as [r|e]; simpl;
      eexists; (split; [apply Happ|]);
      [left|right]; eexists; split; reflexivity.
  - exists "DuckDuckGo search". open_tool. rewrite Hlog. simpl.
    destruct (lookup "DuckDuckGoSearchRun" ns) as [d|]; simpl;
      try (eexists; split; [apply Happ|right; eexists; split; reflexivity]).
    destruct (duckduckgo_run q) as [r|e]; simpl;
      eexists; (split; [apply Happ|]);
      [left|right]; eexists; split; reflexivity.
  - exists "Exa search". open_tool. rewrite Hlog. simpl.
    destruct (lookup "OpenAI" ns) as [o|]; simpl;
      try (eexists; split; [apply Happ|right; eexists; split; reflexivity]).
    destruct (exa_completions_create q) as [[[|m rest]]|e]; simpl.
    + eexists; split; [apply Happ|left; eexists; split; reflexivity].
    + destruct (citations m) as [c|]; simpl;
        eexists; (split; [apply Happ|]);
        [left|right]; eexists; split; reflexivity.
    + eexists; split; [apply Happ|right; eexists; split; reflexivity].
Qed.

(** X10. [search_engine_openai] reads the module's [client] at call time:
    with a logger configured and [client] unbound it does not reach its
    backend; the [NameError] is caught by the tool's own handler, logged
    and raised again. *)
Theorem openai_search_needs_client (q : string) (ns : namespace) (lg : list log_record) :
  lookup "logger" ns = Some VLogger ->
  lookup "client" ns = None ->
  run_tool tool_openai q ns lg
  = (Raised (NameError "client"),
     lg ++ [ {| level := "INFO";
                message := "Executing OpenAI search for query: " ++ q |};
             {| level := "ERROR";
                message := "OpenAI search failed: name 'client' is not defined" |} ])%list.
Proof.
  intros Hlog Hc. open_tool. rewrite Hlog, Hc. simpl.
  rewrite <- app_assoc. reflexivity.
Qed.

(** X9. [exa_search] and [search_engine_duckduckgo] never read the module's
    [client]: rebinding it changes nothing of what they do.  ([exa_search]
    builds a client of its own, a local of the same name.) *)
Theorem other_tools_ignore_client
        (t : tool) (q : string) (v : value) (ns : namespace) (lg : list log_record) :
  t <> tool_openai ->
  run_tool t q (("client", v) :: ns) lg = run_tool t q ns lg.
Proof.
  intros Ht. destruct t; [congruence| |]; open_tool; simpl;
    destruct (lookup "logger" ns) as [[]|]; simpl; try reflexivity;
    try (destruct (lookup "DuckDuckGoSearchRun" ns); simpl; try reflexivity;
         destruct (duckduckgo_run q); reflexivity);
    destruct (lookup "OpenAI" ns); simpl; try reflexivity;
    destruct (exa_completions_create q) as [[[|m rest]]|e]; simpl; try reflexivity;
    destruct (citations m); reflexivity.
Qed.

End MoreToolFacts.

(** X13. Of an Exa answer only the first choice is read: two answers that
    agree on it give the same result and the same log, in every namespace. *)
Theorem exa_search_reads_first_choice
        (rc dr : string -> outcome string)
        (ec1 ec2 : string -> outcome ChatCompletion)
        (q : string) (m : exa_message) (rest1 rest2 : list exa_message)
        (ns : namespace) (lg : list log_record) :
  ec1 q = Returned {| choices := m :: rest1 |} ->
  ec2 q = Returned {| choices := m :: rest2 |} ->
  call_tool rc dr ec1 tool_exa q ns lg = call_tool rc dr ec2 tool_exa q ns lg.
Proof.
  intros H1 H2.
  unfold call_tool, exa_search, log_and_reraise, logger_call, try_except, bind,
    load, lift, log_call, raise, ret.
  rewrite H1, H2. reflexivity.
Qed.

(** DuckDuckGo answers a query in a namespace with every global bound. *)
Lemma search_success_is_logged_witness :
  tools_ready tool_globals
  /\ (forall r, duckduckgo_answers "pvc share of plastics" = Returned r ->
                call_tool openai_times_out duckduckgo_answers exa_answers_nothing
                          tool_duckduckgo "pvc share of plastics" tool_globals []
                = (Returned (VStr r),
                   [] ++ [ {| level := "INFO";
                              message := "Executing DuckDuckGo search for query: "
                                         ++ "pvc share of plastics" |};
                           {| level := "INFO";
                              message := "DuckDuckGo search completed successfully" |} ])%list).
Proof.
  split; [exact tool_globals_ready|].
  destruct (search_success_is_logged
              openai_times_out duckduckgo_answers exa_answers_nothing
              "pvc share of plastics" tool_globals [] tool_globals_ready)
    as (_ & H & _).
  exact H.
Defined.

Lemma exa_search_without_choices_witness :
  tools_ready tool_globals
  /\ exa_answers_nothing "pvc share of plastics" = Returned {| choices := [] |}
  /\ call_tool openai_times_out duckduckgo_answers exa_answers_nothing
               tool_exa "pvc share of plastics" tool_globals []
     = (Returned (VDict [("content", VStr "No content found.");
                         ("citations", VStr "No citations found.")]),
        [] ++ [ {| level := "INFO";
                   message := "Executing Exa search for query: "
                              ++ "pvc share of plastics" |};
                {| level := "INFO";
                   message := "Exa search completed successfully" |} ])%list.
Proof.
  split; [exact tool_globals_ready|]. split; [reflexivity|].
  exact (exa_search_without_choices
           openai_times_out duckduckgo_answers exa_answers_nothing
           "pvc share of plastics" tool_globals [] tool_globals_ready eq_refl).
Defined.

Lemma tool_call_logs_two_records_witness :
  lookup "logger" tool_globals = Some VLogger
  /\ exists what second,
      snd (call_tool openai_times_out duckduckgo_answers exa_answers_nothing
                     tool_openai "pvc share of plastics" tool_globals [])
      = ([] ++ [ {| level := "INFO";
                    message := "Executing " ++ what ++ " for query: "
                               ++ "pvc share of plastics" |};
                 second ])%list
      /\ ((exists v,
              fst (call_tool openai_times_out duckduckgo_answers exa_answers_nothing
                             tool_openai "pvc share of plastics" tool_globals [])
              = Returned v
              /\ second = {| level := "INFO";
                             message := what ++ " completed successfully" |})
          \/ (exists e,
                 fst (call_tool openai_times_out duckduckgo_answers exa_answers_nothing
                                tool_openai "pvc share of plastics" tool_globals [])
                 = Raised e
                 /\ second = {| level := "ERROR";
                                message := what ++ " failed: " ++ str_exn e |})).
Proof.
  split; [reflexivity|].
  exact (tool_call_logs_two_records
           openai_times_out duckduckgo_answers exa_answers_nothing
           tool_openai "pvc share of plastics" tool_globals [] eq_refl).
Defined.

Lemma openai_search_needs_client_witness :
  lookup "logger" [("logger", VLogger)] = Some VLogger
  /\ lookup "client" [("logger", VLogger)] = None
  /\ call_tool duckduckgo_answers duckduckgo_answers exa_answers_nothing
               tool_openai "pvc share of plastics" [("logger", VLogger)] []
     = (Raised (NameError "client"),
        [] ++ [ {| level := "INFO";
                   message := "Executing OpenAI search for query: "
                              ++ "pvc share of plastics" |};
                {| level := "ERROR";
                   message := "OpenAI search failed: name 'client' is not defined" |} ])%list.
Proof.
  split; [reflexivity|]. split; [reflexivity|].
  exact (openai_search_needs_client
           duckduckgo_answers duckduckgo_answers exa_answers_nothing
           "pvc share of plastics" [("logger", VLogger)] [] eq_refl eq_refl).
Defined.

Lemma other_tools_ignore_client_witness :
  tool_exa <> tool_openai
  /\ call_tool openai_times_out duckduckgo_answers exa_answers_nothing
               tool_exa "pvc share of plastics" (("client", VNone) :: tool_globals) []
     = call_tool openai_times_out duckduckgo_answers exa_answers_nothing
                 tool_exa "pvc share of plastics" tool_globals [].
Proof.
  assert (H : tool_exa <> tool_openai) by discriminate.
  split; [exact H|].
  exact (other_tools_ignore_client
           openai_times_out duckduckgo_answers exa_answers_nothing
           tool_exa "pvc share of plastics" VNone tool_globals [] H).
Defined.

Lemma exa_search_reads_first_choice_witness :
  call_tool openai_times_out duckduckgo_answers (fun _ => Returned one_choice)
            tool_exa "pvc share of plastics" tool_globals []
  = call_tool openai_times_out duckduckgo_answers
              (fun _ => Returned {| choices := choices one_choice ++ choices one_choice |})
              tool_exa "pvc share of plastics" tool_globals [].
Proof.
  exact (exa_search_reads_first_choice
           openai_times_out duckduckgo_answers
           (fun _ => Returned one_choice)
           (fun _ => Returned {| choices := choices one_choice ++ choices one_choice |})
           "pvc share of plastics"
           {| content := VStr "PVC is 12% of plastics";
              citations := Some (VStr "https://example.org") |}
           [] (choices one_choice) tool_globals [] eq_refl eq_refl).
Defined.

Lemma tool_without_logger_witness :
  lookup "logger" [("client", VClient None)] = None
  /\ call_tool duckduckgo_answers duckduckgo_answers (fun _ => Returned one_choice)
               tool_duckduckgo "pvc share of plastics" [("client", VClient None)] []
     = (Raised (NameError "logger"), []).
Proof.
  split; [reflexivity|].
  exact (tool_without_logger
           duckduckgo_answers duckduckgo_answers (fun _ => Returned one_choice)
           tool_duckduckgo "pvc share of plastics" [("client", VClient None)] [] eq_refl).
Defined.

(** ** The declared prompts and agents *)

Lemma prefix_append (x y : string) : prefix x (x ++ y) = true.
Proof.
  induction x as [|c x IH]; simpl; [destruct y; reflexivity|].
  destruct (ascii_dec c c); [exact IH|congruence].
Qed.

Lemma contains_append_r (x a b : string) :
  contains x b = true -> contains x (a ++ b) = true.
Proof.
  intros H. induction a as [|c a IH]; simpl; [exact H|].
  rewrite IH. apply orb_true_r.
Qed.

Lemma contains_append_self (x y : string) : contains x (x ++ y) = true.
Proof.
  destruct x as [|c x]; [destruct y; reflexivity|].
  change (contains (String c x) (String c x ++ y))
    with (prefix (String c x) (String c x ++ y) || contains (String c x) (x ++ y)).
  rewrite prefix_append. reflexivity.
Qed.

(** A string bound to a field of an f-string occurs in the filled text. *)
Lemma fill_contains_field (ps : list piece) (ns : namespace) (x v : string) :
  In x (field_names ps) -> lookup x ns = Some (VStr v) ->
  contains v (fill_pieces ns ps) = true.
Proof.
  induction ps as [|[s|z] ps IH]; simpl; intros Hin Hx; [tauto| |].
  - apply contains_append_r, IH; assumption.
  - destruct Hin as [->|Hin].
    + rewrite Hx. apply contains_append_self.
    + apply contains_append_r, IH; assumption.
Qed.

Lemma fill_contains_free_name (l : literal) (ns : namespace) (x v : string) :
  In x (free_names l) -> lookup x ns = Some (VStr v) ->
  contains v (fill ns l) = true.
Proof.
  unfold free_names, fill. destruct (fprefix l); [|simpl; tauto].
  destruct (pieces_of l) as [ps|]; [|simpl; tauto].
  apply fill_contains_field.
Qed.

(** X11. What a caller supplies for the names of the two f-string prompts
    reaches the engines: the location occurs in the bulky-item agent's
    prompt, and the location and the three R4 parameters occur in the
    thermal-conversion agent's prompt. *)
Theorem supplied_names_reach_the_prompts (place p t r : string) :
  contains place (prompt (sorting_supervisor_agent place p t r)) = true
  /\ Forall (fun v => contains v (prompt (R4_process_engineer_agent place p t r)) = true)
            [place; p; t; r].
Proof.
  split.
  - apply (fill_contains_free_name sorting_supervisor_prompt _ "place");
      [vm_compute; tauto|reflexivity].
  - repeat (apply Forall_cons; [|]); [| | | |apply Forall_nil].
    + apply (fill_contains_free_name R4_process_engineer_prompt _ "place");
        [vm_compute; tauto|reflexivity].
    + apply (fill_contains_free_name R4_process_engineer_prompt _ "r4_negative_pressure");
        [vm_compute; tauto|reflexivity].
    + apply (fill_contains_free_name R4_process_engineer_prompt _ "r4_temperature");
        [vm_compute; tauto|reflexivity].
    + apply (fill_contains_free_name R4_process_engineer_prompt _ "r4_retention_time");
        [vm_compute; tauto|reflexivity].
Qed.

(** X12. A handoff name finds exactly the registered agent of that name:
    the six agent names are pairwise distinct, so the order of the list of
    line 393 does not change which agent a name denotes. *)
Theorem handoff_name_denotes_one_agent (place p t r nm : string) (a : ReactAgent) :
  (find_agent nm (process_engineer_workflow place p t r) = Some a
   <-> In a (agents (process_engineer_workflow place p t r)) /\ name a = nm)
  /\ NoDup (map name (agents (process_engineer_workflow place p t r))).
Proof.
  split; [split|].
  - apply find_agent_name.
  - intros [Hin <-]. simpl in Hin.
    repeat (destruct Hin as [<-|Hin]; [reflexivity|]). contradiction.
  - simpl. repeat (constructor; [simpl; intuition discriminate|]). constructor.
Qed.
